(** * ShipSure: a shallow embedding of the PR risk pipeline

    The Python sources modelled here are [pr_processor.py] (the PR
    orchestrator), [main.py] (the batch driver), [gpt_analyzer.py] (the
    risk scorer), [test_runner.py] and [run_tests_daytona.py] (the sandbox
    executor and the source resolver).

    Conventions.
    - Python [str] values are [string] (ASCII characters); [str.lower] is the
      ASCII lower-casing [py_lower]; [x in s] on strings is [py_in x s].
    - A Python exception is [Exc msg], where [msg] is [str(e)]; a normal
      return is [Ok v].
    - A [Dict[str, str]] file set is a [gmap string string]; a result dict
      whose fields are read by name is a record; a dict that is merged with
      [dict.update] is an association list [pydict] in insertion order.
    - Calls to GitHub, Daytona and OpenAI, and library functions such as
      [ast.parse] and [json.loads], are parameters of the model: a record of
      collaborator functions returning [exc] outcomes. *)

From Stdlib Require Import Ascii String ZArith List Bool Lia.
From stdpp Require Import base gmap sets list strings pretty.
Import ListNotations.

Set Warnings "-register-all".

Open Scope string_scope.

(* ------------------------------------------------------------------ *)
(** ** Strings *)

Definition ascii_lower (c : ascii) : ascii :=
  let n := nat_of_ascii c in
  if (65 <=? n)%nat && (n <=? 90)%nat then ascii_of_nat (n + 32) else c.

(** [s.lower()] on ASCII text. *)
Fixpoint py_lower (s : string) : string :=
  match s with
  | EmptyString => EmptyString
  | String c s' => String (ascii_lower c) (py_lower s')
  end.

(** [needle in hay] for two strings. *)
Fixpoint py_in (needle hay : string) : bool :=
  if String.prefix needle hay then true
  else match hay with
       | EmptyString => false
       | String _ hay' => py_in needle hay'
       end.

(** [any(k in s for k in keys)] *)
Definition any_in (keys : list string) (s : string) : bool :=
  existsb (fun k => py_in k s) keys.

(** [s[:n]] *)
Definition py_prefix (n : nat) (s : string) : string := substring 0 n s.

(** [s.endswith(suffix)] *)
Definition py_endswith (suffix s : string) : bool :=
  let ls := String.length s in
  let lx := String.length suffix in
  (lx <=? ls)%nat && String.eqb (substring (ls - lx) lx s) suffix.

(* ------------------------------------------------------------------ *)
(** ** JSON values and Python dicts *)

(** A JSON value as [json.loads] returns it (numbers restricted to
    integers). Objects keep their keys in order. *)
Inductive json :=
| JNull
| JBool (b : bool)
| JNum (z : Z)
| JStr (s : string)
| JArr (l : list json)
| JObj (l : list (string * json)).

(** A Python [dict] with string keys, in insertion order. *)
Definition pydict := list (string * json).

(** [d.get(k)] *)
Fixpoint dict_get (d : pydict) (k : string) : option json :=
  match d with
  | [] => None
  | (k', v) :: d' => if String.eqb k k' then Some v else dict_get d' k
  end.

(** [d[k] = v]: an existing key keeps its position, a new key goes last. *)
Fixpoint dict_set (d : pydict) (k : string) (v : json) : pydict :=
  match d with
  | [] => [(k, v)]
  | (k', v') :: d' =>
      if String.eqb k k' then (k', v) :: d' else (k', v') :: dict_set d' k v
  end.

(** [d.update(other)] for a dict [other]. *)
Definition dict_update (d other : pydict) : pydict :=
  fold_left (fun acc kv => dict_set acc kv.1 kv.2) other d.

(** The outcome of a Python computation: a value or a raised exception
    carrying [str(e)]. *)
Inductive exc (A : Type) :=
| Ok (a : A)
| Exc (msg : string).
Arguments Ok {A} a.
Arguments Exc {A} msg.

(* ------------------------------------------------------------------ *)
(** ** Bot comment classification: [PRProcessor._extract_review_info] *)

(** A comment as returned by the GitHub API: [comment['body']] and
    [comment['user']['login']]. *)
Record Comment := {
  c_body : string;
  c_login : string
}.

Definition danger_keywords := ["error"; "bug"; "security"; "vulnerability"].
Definition warning_keywords := ["warning"; "suggestion"; "improvement"].
Definition success_keywords := ["good"; "approved"; "passed"].

Definition review_name := "Coderabbit Review".

(** [body[:200] + "..." if len(body) > 200 else body] *)
Definition review_description (body : string) : string :=
  if (200 <? String.length body)%nat then py_prefix 200 body ++ "..." else body.

(** The type detection: [review_info["type"]] after the if/elif chain. *)
Definition classify (body : string) : string :=
  let body_lower := py_lower body in
  if any_in danger_keywords body_lower then "danger"
  else if any_in warning_keywords body_lower then "warning"
  else if any_in success_keywords body_lower then "success"
  else "info".

Definition extract_review_info (comment : Comment) : option pydict :=
  let body := c_body comment in
  let user := c_login comment in
  if negb (py_in "coderabbit" (py_lower user)) then None
  else
    let review_info :=
      [("name", JStr review_name); ("type", JStr "info");
       ("description", JStr (review_description body))] in
    Some (dict_set review_info "type" (JStr (classify body))).

(* ------------------------------------------------------------------ *)
(** ** File sets and their merge *)

(** A [Dict[str, str]] from relative path to content. *)
Abbreviation FileSet := (gmap string string).

(** [{**a, **b}]: start from [a], then write every entry of [b]. *)
Definition dict_merge (a b : FileSet) : FileSet :=
  foldl (fun acc kv => <[kv.1 := kv.2]> acc) a (map_to_list b).

(** [TestRunner.setup_environment]: the dict serialised into the sandbox
    ([all_files = {**code_files, **test_files}]). *)
Definition setup_environment_files (code_files test_files : FileSet) : FileSet :=
  dict_merge code_files test_files.

(* ------------------------------------------------------------------ *)
(** ** The effect model: exceptions over a state with a call trace *)

(** The Python programs sent to [sandbox.process.code_run]. *)
Inductive snippet :=
| SSetupFiles (all_files : FileSet)        (* setup_environment *)
| SInstall (packages : list string)        (* install_dependencies *)
| SRunTests (command_source : string).     (* run_tests: the literal text *)

(** The calls to external services that the claims talk about. *)
Inductive event :=
| ECreateSandbox
| ECodeRun (code : snippet)        (* sandbox.process.code_run *)
| EDeleteSandbox (h : Z)           (* sandbox.delete(), attempted *)
| EFetch (path : string) (ok : bool). (* get_file_content(path), succeeded? *)

(** [st_sandbox] is the [TestRunner.sandbox] attribute (a sandbox id),
    [st_trace] the external calls made so far, oldest first. *)
Record St := {
  st_sandbox : option Z;
  st_trace : list event
}.

Definition log (e : event) (st : St) : St :=
  {| st_sandbox := st_sandbox st; st_trace := (st_trace st ++ [e])%list |}.

Definition M (A : Type) : Type := St -> exc A * St.

Global Instance M_ret : MRet M := fun A a st => (Ok a, st).
Global Instance M_bind : MBind M := fun A B f m st =>
  match m st with
  | (Ok a, st') => f a st'
  | (Exc e, st') => (Exc e, st')
  end.

Definition raise {A} (msg : string) : M A := fun st => (Exc msg, st).

(** [try: m except Exception as e: h(str(e))] *)
Definition try_except {A} (m : M A) (h : string -> M A) : M A := fun st =>
  match m st with
  | (Ok a, st') => (Ok a, st')
  | (Exc e, st') => h e st'
  end.

(** [try: m finally: fin]: [fin] always runs; an exception it raises
    replaces the outcome of [m]. *)
Definition try_finally {A} (m : M A) (fin : M unit) : M A := fun st =>
  let '(r, st1) := m st in
  match fin st1 with
  | (Ok _, st2) => (r, st2)
  | (Exc e, st2) => (Exc e, st2)
  end.

(** A call to a collaborator whose outcome is [r], not traced. *)
Definition call {A} (r : exc A) : M A := fun st => (r, st).

(* ------------------------------------------------------------------ *)
(** ** Paths *)

Definition slash : ascii := "/"%char.
Definition backslash : ascii := ascii_of_nat 92.

(** [s.split(sep)] for a one-character separator. *)
Fixpoint split_on (sep : ascii) (s : string) : list string :=
  match s with
  | EmptyString => [EmptyString]
  | String c s' =>
      if Ascii.eqb c sep then EmptyString :: split_on sep s'
      else match split_on sep s' with
           | [] => [String c EmptyString]
           | w :: ws => String c w :: ws
           end
  end.

(** [s.replace(a, b)] for one-character [a] and [b]. *)
Fixpoint replace_char (a b : ascii) (s : string) : string :=
  match s with
  | EmptyString => EmptyString
  | String c s' => String (if Ascii.eqb c a then b else c) (replace_char a b s')
  end.

(** [os.path.basename] (POSIX): the text after the last slash. *)
Definition basename (p : string) : string := List.last (split_on slash p) EmptyString.

Fixpoint all_dots (s : string) : bool :=
  match s with
  | EmptyString => true
  | String c s' => Ascii.eqb c "."%char && all_dots s'
  end.

(** [os.path.splitext(name)[0]] for a name without slashes: cut at the
    last dot unless only dots precede it. *)
Definition splitext_root (name : string) : string :=
  let parts := split_on "."%char name in
  match parts with
  | [] | [_] => name
  | _ =>
      let root_len := (String.length name - String.length (List.last parts EmptyString) - 1)%nat in
      let root := substring 0 root_len name in
      if all_dots root then name else root
  end.

(** [file_path.replace('\\', '/').split('/')] *)
Definition path_parts (p : string) : list string :=
  split_on slash (replace_char backslash slash p).

(* ------------------------------------------------------------------ *)
(** ** The GitHub collaborator *)

(** The fields of [get_pr_info(...)] the code reads; GitHub sends a
    [null] body for a PR without a description. *)
Record PRInfo := {
  pr_title : string;
  pr_body : option string;
  pr_html_url : string;
  pr_head_sha : string;
  pr_head_ref : string
}.

(** An entry of [get_pr_files(...)]: [filename] and [status]. *)
Record FileInfo := {
  fi_filename : string;
  fi_status : string
}.

(** [GitHubAPIClient], one function per method (or raw request) the
    modelled code uses. [gh_tree sha] is the list of [item['path']] of
    [GET git/trees/{sha}?recursive=1] after [raise_for_status]. *)
Record GitHub := {
  gh_get_pr_info : Z -> exc PRInfo;
  gh_tree : string -> exc (list string);
  gh_get_file_content : string -> string -> exc string;
  gh_get_pr_files : Z -> exc (list FileInfo);
  gh_check_coderabbit_review : Z -> exc bool;
  gh_get_coderabbit_comments : Z -> exc (list Comment);
  gh_trigger_unit_test_generation : Z -> exc unit;
  gh_find_coderabbit_test_pr : Z -> exc (option Z)
}.

Definition is_ok {A} (r : exc A) : bool := match r with Ok _ => true | Exc _ => false end.

(** [client.get_file_content(owner, repo, path, ref=ref)], traced. *)
Definition get_file_content (gh : GitHub) (path ref : string) : M string :=
  fun st => let r := gh_get_file_content gh path ref in
            (r, log (EFetch path (is_ok r)) st).

(** [try: content = get_file_content(...) ... except Exception: print(...)] *)
Definition try_fetch (gh : GitHub) (path ref : string) : M (option string) :=
  try_except (c ← get_file_content gh path ref; mret (Some c))
             (fun _ => mret None).

(* ------------------------------------------------------------------ *)
(** ** Source resolution: [fetch_source_files_from_imports] *)

Definition stdlib_modules : list string :=
  ["sys"; "os"; "json"; "base64"; "subprocess"; "unittest"; "pytest";
   "typing"; "re"; "ast"; "collections"; "datetime"; "time"; "random"; "math"].

Definition in_list (x : string) (l : list string) : bool :=
  existsb (String.eqb x) l.

(** [filtered_modules = {m for m in imported_modules if m not in [...]}] *)
Definition filter_modules (imported : gset string) : gset string :=
  filter (fun m => in_list m stdlib_modules = false) imported.

(** The inner [for module in filtered_modules] loop of the tree path: a
    file matching a module by name or by package directory is fetched;
    on success the loop breaks, on failure it goes on with the next module. *)
Fixpoint scan_modules_tree (gh : GitHub) (sha file_path : string)
    (mods : list string) (source_files : FileSet) : M FileSet :=
  let file_name := basename file_path in
  let file_name_no_ext := splitext_root file_name in
  match mods with
  | [] => mret source_files
  | module :: mods' =>
      if String.eqb file_name_no_ext module || String.eqb file_name (module ++ ".py") then
        r ← try_fetch gh file_path sha;
        match r with
        | Some content => mret (<[file_path := content]> source_files)
        | None => scan_modules_tree gh sha file_path mods' source_files
        end
      else if in_list module (path_parts file_path) then
        r ← try_fetch gh file_path sha;
        match r with
        | Some content => mret (<[file_path := content]> source_files)
        | None => scan_modules_tree gh sha file_path mods' source_files
        end
      else scan_modules_tree gh sha file_path mods' source_files
  end.

Definition is_test_path_tree (file_path : string) : bool :=
  py_in "test" (py_lower file_path) || py_endswith "_test.py" file_path
  || py_endswith "tests.py" file_path.

(** [for item in tree_data.get('tree', []): ...] *)
Fixpoint scan_tree (gh : GitHub) (sha : string) (mods : list string)
    (existing : FileSet) (items : list string) (source_files : FileSet)
    : M FileSet :=
  match items with
  | [] => mret source_files
  | file_path :: items' =>
      if bool_decide (is_Some (existing !! file_path))
         || bool_decide (is_Some (source_files !! file_path)) then
        scan_tree gh sha mods existing items' source_files
      else if is_test_path_tree file_path then
        scan_tree gh sha mods existing items' source_files
      else if negb (py_endswith ".py" file_path) then
        scan_tree gh sha mods existing items' source_files
      else
        sf ← scan_modules_tree gh sha file_path mods source_files;
        scan_tree gh sha mods existing items' sf
  end.

(** The inner loop of the changed-files fallback: one combined test. *)
Fixpoint scan_modules_fallback (gh : GitHub) (sha file_path : string)
    (mods : list string) (source_files : FileSet) : M FileSet :=
  let file_name := basename file_path in
  let file_name_no_ext := splitext_root file_name in
  match mods with
  | [] => mret source_files
  | module :: mods' =>
      if String.eqb file_name_no_ext module || String.eqb file_name (module ++ ".py")
         || in_list module (path_parts file_path) then
        r ← try_fetch gh file_path sha;
        match r with
        | Some content => mret (<[file_path := content]> source_files)
        | None => scan_modules_fallback gh sha file_path mods' source_files
        end
      else scan_modules_fallback gh sha file_path mods' source_files
  end.

(** [for file_info in pr_files: ...] in the [except] branch. *)
Fixpoint scan_changed (gh : GitHub) (sha : string) (mods : list string)
    (existing : FileSet) (pr_files : list FileInfo) (source_files : FileSet)
    : M FileSet :=
  match pr_files with
  | [] => mret source_files
  | fi :: pr_files' =>
      let file_path := fi_filename fi in
      if bool_decide (is_Some (existing !! file_path))
         || bool_decide (is_Some (source_files !! file_path)) then
        scan_changed gh sha mods existing pr_files' source_files
      else if py_in "test" (py_lower file_path) then
        scan_changed gh sha mods existing pr_files' source_files
      else if negb (py_endswith ".py" file_path) then
        scan_changed gh sha mods existing pr_files' source_files
      else
        sf ← scan_modules_fallback gh sha file_path mods source_files;
        scan_changed gh sha mods existing pr_files' sf
  end.

(** [fetch_source_files_from_imports(client, owner, repo, pr_number,
    imported_modules, existing_files)]. The tree request either fails
    before the loop (network error, [raise_for_status]) or yields the
    listing, so the fallback starts from an empty [source_files]. *)
Definition fetch_source_files_from_imports (gh : GitHub) (pr_number : Z)
    (imported_modules : gset string) (existing_files : FileSet) : M FileSet :=
  if bool_decide (imported_modules = ∅) then mret ∅ else
  pr_info ← call (gh_get_pr_info gh pr_number);
  let head_sha := pr_head_sha pr_info in
  let filtered_modules := filter_modules imported_modules in
  if bool_decide (filtered_modules = ∅) then mret ∅ else
  let mods := elements filtered_modules in
  try_except
    (items ← call (gh_tree gh head_sha);
     scan_tree gh head_sha mods existing_files items ∅)
    (fun _ =>
       pr_files ← call (gh_get_pr_files gh pr_number);
       scan_changed gh head_sha mods existing_files pr_files ∅).

(* ------------------------------------------------------------------ *)
(** ** Import extraction: [parse_imports_from_test_files] *)

(** The import nodes [ast.walk] meets: [ast.Import] with its alias names,
    [ast.ImportFrom] with its [module] ([None] for [from . import x]). *)
Inductive import_node :=
| ImportNode (names : list string)
| ImportFromNode (module : option string).

Definition char_in (c : ascii) (lo hi : nat) : bool :=
  let n := nat_of_ascii c in (lo <=? n)%nat && (n <=? hi)%nat.

(** [\s] and [str.isspace] on ASCII: \t \n \x0b \x0c \r, \x1c-\x1f, space. *)
Definition is_py_space (c : ascii) : bool :=
  char_in c 9 13 || char_in c 28 32.

Definition is_ident_start (c : ascii) : bool :=
  char_in c 65 90 || char_in c 97 122 || Ascii.eqb c "_"%char.

Definition is_ident_char (c : ascii) : bool :=
  is_ident_start c || char_in c 48 57.

Fixpoint lstrip (s : string) : string :=
  match s with
  | String c s' => if is_py_space c then lstrip s' else s
  | EmptyString => EmptyString
  end.

Fixpoint rev_str (s : string) (acc : string) : string :=
  match s with
  | EmptyString => acc
  | String c s' => rev_str s' (String c acc)
  end.

(** [line.strip()] *)
Definition py_strip (s : string) : string :=
  rev_str (lstrip (rev_str (lstrip s) EmptyString)) EmptyString.

(** The greedy match of the rest of a dotted name after its first
    identifier character: identifier characters, and dots each followed by
    an identifier start. *)
Fixpoint scan_dotted (s : string) : string :=
  match s with
  | EmptyString => EmptyString
  | String c s' =>
      if is_ident_char c then String c (scan_dotted s')
      else if Ascii.eqb c "."%char then
        match s' with
        | String c2 _ => if is_ident_start c2 then String c (scan_dotted s') else EmptyString
        | EmptyString => EmptyString
        end
      else EmptyString
  end.

(** Group 1 of [re.match(import_pattern, l)] for the pattern of
    [run_tests_daytona.py] line 339: an optional [from] followed by
    whitespace, then a dotted name ([[a-zA-Z_][a-zA-Z0-9_]] words joined by
    dots), anchored at the start; the backtracking out of the optional
    group is written out. *)
Definition match_import_pattern (l : string) : option string :=
  let no_from :=
    match l with
    | String c _ => if is_ident_start c then Some (scan_dotted l) else None
    | EmptyString => None
    end in
  if String.prefix "from" l then
    match substring 4 (String.length l - 4) l with
    | String c rest =>
        if is_py_space c then
          match lstrip rest with
          | String c2 r2 =>
              if is_ident_start c2 then Some (scan_dotted (String c2 r2)) else no_from
          | EmptyString => no_from
          end
        else no_from
    | EmptyString => no_from
    end
  else no_from.

(** [module.split('.')[0]] *)
Definition first_segment (m : string) : string :=
  List.hd EmptyString (split_on "."%char m).

(** [imported_modules.add(m)] and, for a dotted [m], its first segment. *)
Definition add_module (m : string) (acc : gset string) : gset string :=
  let acc := {[m]} ∪ acc in
  if py_in "." m then {[first_segment m]} ∪ acc else acc.

Definition add_node (acc : gset string) (n : import_node) : gset string :=
  match n with
  | ImportNode names => foldl (fun a m => add_module m a) acc names
  | ImportFromNode (Some m) => add_module m acc
  | ImportFromNode None => acc
  end.

Definition newline : ascii := ascii_of_nat 10.

(** The [except SyntaxError] branch: the pattern on every stripped line. *)
Definition regex_fallback (content : string) (acc : gset string) : gset string :=
  foldl (fun a line =>
           match match_import_pattern (py_strip line) with
           | Some m => add_module m a
           | None => a
           end) acc (split_on newline content).

(** [ast_parse content] is [ast.parse] followed by [ast.walk], keeping the
    import nodes; [None] is a [SyntaxError]. *)
Definition parse_imports_from_test_files
    (ast_parse : string -> option (list import_node)) (test_files : FileSet)
    : gset string :=
  foldl (fun acc (kv : string * string) =>
           let '(file_path, content) := kv in
           if negb (py_endswith ".py" file_path) then acc
           else match ast_parse content with
                | Some nodes => foldl add_node acc nodes
                | None => regex_fallback content acc
                end) ∅ (map_to_list test_files).

(* ------------------------------------------------------------------ *)
(** ** Command quoting in [TestRunner.run_tests] *)

Definition squote : ascii := ascii_of_nat 39.
Definition dquote : ascii := ascii_of_nat 34.
Definition cr : ascii := ascii_of_nat 13.
Definition nul : ascii := ascii_of_nat 0.

(** [test_command.replace("'", "'\"'\"'")]: every single quote becomes the
    five characters quote, double quote, quote, double quote, quote. *)
Fixpoint escape_command (cmd : string) : string :=
  match cmd with
  | EmptyString => EmptyString
  | String c cmd' =>
      if Ascii.eqb c squote then
        String squote (String dquote (String squote (String dquote
          (String squote (escape_command cmd')))))
      else String c (escape_command cmd')
  end.

(** The source text [ '{escaped_command}' ] of the [subprocess.run]
    argument in the generated snippet (both copies of [run_tests]). *)
Definition command_literal (cmd : string) : string :=
  String squote (escape_command cmd ++ String squote EmptyString).

(** The tokenizer state while reading a run of adjacent Python string
    literals without prefix: between literals, inside one opened by [q], or
    just after a backslash inside one. *)
Inductive lex_mode :=
| Between
| InLit (q : ascii)
| AfterBackslash (q : ascii).

Definition cons_exc (c : ascii) (r : exc string) : exc string :=
  match r with Ok s => Ok (String c s) | Exc e => Exc e end.

(** The value of a run of adjacent string literals (implicit
    concatenation), as Python reads it. Escapes with a fixed meaning are
    decoded; an unknown escape keeps its backslash; a backslash-newline is
    dropped; octal, [\x], [\N], [\u], [\U] escapes are not decoded here. *)
Fixpoint lex_literals (m : lex_mode) (s : string) : exc string :=
  match s with
  | EmptyString =>
      match m with
      | Between => Ok EmptyString
      | _ => Exc "SyntaxError: unterminated string literal"
      end
  | String c s' =>
      match m with
      | Between =>
          if Ascii.eqb c squote || Ascii.eqb c dquote then lex_literals (InLit c) s'
          else if Ascii.eqb c " "%char then lex_literals Between s'
          else Exc "SyntaxError: invalid syntax"
      | InLit q =>
          if Ascii.eqb c q then lex_literals Between s'
          else if Ascii.eqb c backslash then lex_literals (AfterBackslash q) s'
          else if Ascii.eqb c newline || Ascii.eqb c cr then
            Exc "SyntaxError: unterminated string literal"
          else if Ascii.eqb c nul then
            Exc "SyntaxError: source code cannot contain null bytes"
          else cons_exc c (lex_literals (InLit q) s')
      | AfterBackslash q =>
          let k := lex_literals (InLit q) s' in
          if Ascii.eqb c newline then k
          else if Ascii.eqb c backslash || Ascii.eqb c squote || Ascii.eqb c dquote then cons_exc c k
          else if Ascii.eqb c "n"%char then cons_exc newline k
          else if Ascii.eqb c "t"%char then cons_exc (ascii_of_nat 9) k
          else if Ascii.eqb c "r"%char then cons_exc cr k
          else if Ascii.eqb c "a"%char then cons_exc (ascii_of_nat 7) k
          else if Ascii.eqb c "b"%char then cons_exc (ascii_of_nat 8) k
          else if Ascii.eqb c "f"%char then cons_exc (ascii_of_nat 12) k
          else if Ascii.eqb c "v"%char then cons_exc (ascii_of_nat 11) k
          else if char_in c 48 55 || Ascii.eqb c "x"%char || Ascii.eqb c "N"%char
                  || Ascii.eqb c "u"%char || Ascii.eqb c "U"%char then
            Exc "numeric or named escape (not decoded in this model)"
          else cons_exc backslash (cons_exc c k)
      end
  end.

(** The command string that [subprocess.run(..., shell=True)] receives. *)
Definition command_as_run (cmd : string) : exc string :=
  lex_literals Between (command_literal cmd).

(* ------------------------------------------------------------------ *)
(** ** Execution results and the sandbox collaborator *)

(** A generated test descriptor: [{"test": ..., "reason": ...}]. *)
Record Descriptor := {
  d_test : string;
  d_reason : string
}.

(** The dict returned by [PRProcessor._run_tests_in_daytona]. *)
Record TestResults := {
  tr_status : string;
  tr_exit_code : option Z;
  tr_output : string;
  tr_generated : list Descriptor;
  tr_error : option string
}.

(** [Daytona]: [create()], [sandbox.process.code_run(code)] giving
    [(exit_code, result)], and [sandbox.delete()]. *)
Record Daytona := {
  dt_create : exc Z;
  dt_code_run : Z -> snippet -> exc (Z * string);
  dt_delete : Z -> exc unit
}.

Definition no_sandbox_msg := "AttributeError: 'NoneType' object has no attribute 'process'".

(** [self.sandbox.process.code_run(code)], traced. *)
Definition code_run (dt : Daytona) (code : snippet) : M (Z * string) := fun st =>
  match st_sandbox st with
  | None => (Exc no_sandbox_msg, st)
  | Some h => (dt_code_run dt h code, log (ECodeRun code) st)
  end.

(** [TestRunner.create_sandbox]: [self.sandbox = self.daytona.create()]. *)
Definition create_sandbox (dt : Daytona) : M Z := fun st =>
  let st1 := log ECreateSandbox st in
  match dt_create dt with
  | Ok h => (Ok h, {| st_sandbox := Some h; st_trace := st_trace st1 |})
  | Exc e => (Exc e, st1)
  end.

(** [TestRunner.setup_environment] (the result is [exit_code == 0]). *)
Definition setup_environment (dt : Daytona) (code_files test_files : FileSet) : M bool :=
  r ← code_run dt (SSetupFiles (setup_environment_files code_files test_files));
  mret (bool_decide (r.1 = 0%Z)).

(** [TestRunner.install_dependencies(packages=None)]. *)
Definition install_dependencies (dt : Daytona) (packages : option (list string)) : M bool :=
  let packages := default ["pytest"] packages in
  r ← code_run dt (SInstall packages);
  mret (bool_decide (r.1 = 0%Z)).

(** [TestRunner.run_tests(test_command)]: [(exit_code, result)]. *)
Definition run_tests (dt : Daytona) (test_command : string) : M (Z * string) :=
  code_run dt (SRunTests (command_literal test_command)).

(** [TestRunner.cleanup]: [if self.sandbox: try: delete() except: pass]. *)
Definition cleanup (dt : Daytona) : M unit := fun st =>
  match st_sandbox st with
  | None => (Ok tt, st)
  | Some h =>
      try_except (fun st => (match dt_delete dt h with Ok _ => Ok tt | Exc e => Exc e end,
                             log (EDeleteSandbox h) st))
                 (fun _ => mret tt) st
  end.

(* ------------------------------------------------------------------ *)
(** ** Test command detection: [detect_test_command] *)

Definition detect_test_command (files : FileSet) : string :=
  let paths := map fst (map_to_list files) in
  let content f := default "" (files !! f) in
  let test_files := List.filter (fun f => py_in "test" (py_lower f) || py_in "spec" (py_lower f)) paths in
  if existsb (py_endswith ".py") test_files then
    if existsb (fun f => py_in "pytest" (content f) || py_in "import pytest" (content f)) test_files
    then "python -m pytest"
    else if existsb (fun f => py_in "unittest" (content f) || py_in "import unittest" (content f)) test_files
    then "python -m unittest discover"
    else "python -m pytest"
  else if existsb (fun f => py_endswith ".js" f || py_endswith ".ts" f) test_files then "npm test"
  else if existsb (py_endswith ".java") test_files then "mvn test"
  else "python -m pytest".

(* ------------------------------------------------------------------ *)
(** ** Generated test names *)

Definition is_word_char (c : ascii) : bool := is_ident_char c.

Fixpoint word_run (s : string) : string * string :=
  match s with
  | String c s' =>
      if is_word_char c then let '(w, r) := word_run s' in (String c w, r) else (EmptyString, s)
  | EmptyString => (EmptyString, EmptyString)
  end.

(** [re.findall(r'def\s+(test_\w+)', content)]: leftmost, non-overlapping. *)
Fixpoint find_test_defs (fuel : nat) (s : string) : list string :=
  match fuel with
  | O => []
  | S fuel' =>
      match s with
      | EmptyString => []
      | String _ s' =>
          let next := find_test_defs fuel' s' in
          if String.prefix "def" s then
            let after_def := substring 3 (String.length s - 3) s in
            match after_def with
            | String c r =>
                if is_py_space c then
                  let r' := lstrip r in
                  if String.prefix "test_" r' then
                    let '(w, rest) := word_run (substring 5 (String.length r' - 5) r') in
                    match w with
                    | EmptyString => next
                    | _ => ("test_" ++ w) :: find_test_defs fuel' rest
                    end
                  else next
                else next
            | EmptyString => next
            end
          else next
      end
  end.

Definition is_letter (c : ascii) : bool := char_in c 65 90 || char_in c 97 122.

Definition ascii_upper (c : ascii) : ascii :=
  if char_in c 97 122 then ascii_of_nat (nat_of_ascii c - 32) else c.

(** [s.title()] on ASCII text. *)
Fixpoint title_from (prev_cased : bool) (s : string) : string :=
  match s with
  | EmptyString => EmptyString
  | String c s' =>
      if is_letter c then
        String (if prev_cased then ascii_lower c else ascii_upper c) (title_from true s')
      else String c (title_from false s')
  end.

Definition py_title (s : string) : string := title_from false s.

(** [s.replace(old, new)] for a non-empty [old]. *)
Fixpoint replace_str (fuel : nat) (old new s : string) : string :=
  match fuel with
  | O => s
  | S fuel' =>
      match s with
      | EmptyString => EmptyString
      | String c s' =>
          if String.prefix old s then
            new ++ replace_str fuel' old new
                      (substring (String.length old) (String.length s - String.length old) s)
          else String c (replace_str fuel' old new s')
      end
  end.

Definition underscores_to_spaces (s : string) : string := replace_char "_"%char " "%char s.

(** The loop over [test_files.items()] building [result["generatedTests"]]. *)
Definition generated_tests (test_files : FileSet) : list Descriptor :=
  List.concat (map (fun kv : string * string =>
    let '(file_path, content) := kv in
    if py_in "test" (py_lower file_path) && py_endswith ".py" file_path then
      match find_test_defs (String.length content) content with
      | [] =>
          [{| d_test := py_title (replace_str (String.length file_path) ".py" ""
                          (underscores_to_spaces (basename file_path)));
              d_reason := "Generated by Coderabbit" |}]
      | fs => map (fun f => {| d_test := py_title (underscores_to_spaces f);
                               d_reason := "Generated by Coderabbit based on code analysis" |}) fs
      end
    else []) (map_to_list test_files)).

(* ------------------------------------------------------------------ *)
(** ** [prepare_files_from_pr] *)

Fixpoint fetch_tree_files (gh : GitHub) (sha : string) (items : list string)
    (files : FileSet) : M FileSet :=
  match items with
  | [] => mret files
  | file_path :: items' =>
      if py_endswith ".py" file_path && negb (py_in "test" (py_lower file_path)) then
        r ← try_fetch gh file_path sha;
        fetch_tree_files gh sha items'
          (match r with Some content => <[file_path := content]> files | None => files end)
      else fetch_tree_files gh sha items' files
  end.

Fixpoint fetch_changed_files (gh : GitHub) (sha : string) (pr_files : list FileInfo)
    (files : FileSet) : M FileSet :=
  match pr_files with
  | [] => mret files
  | fi :: pr_files' =>
      if in_list (fi_status fi) ["added"; "modified"] then
        r ← try_fetch gh (fi_filename fi) sha;
        fetch_changed_files gh sha pr_files'
          (match r with Some content => <[fi_filename fi := content]> files | None => files end)
      else fetch_changed_files gh sha pr_files' files
  end.

(** The tree request fails before its loop or not at all, so the fallback
    to changed files starts from the empty dict. *)
Definition prepare_files_from_pr (gh : GitHub) (pr_number : Z) (fetch_all : bool)
    : M FileSet :=
  pr_info ← call (gh_get_pr_info gh pr_number);
  let head_sha := pr_head_sha pr_info in
  (if fetch_all then
     try_except (items ← call (gh_tree gh head_sha);
                 files ← fetch_tree_files gh head_sha items ∅;
                 mret (files, true))
                (fun _ => mret (∅, false))
   else mret (∅, false)) ≫= fun (r : FileSet * bool) =>
  let '(files, fetch_all) := r in
  if fetch_all then mret files
  else
    pr_files ← call (gh_get_pr_files gh pr_number);
    fetch_changed_files gh head_sha pr_files files.

(* ------------------------------------------------------------------ *)
(** ** [PRProcessor._run_tests_in_daytona] *)

Definition initial_test_results : TestResults :=
  {| tr_status := "unknown"; tr_exit_code := None; tr_output := "";
     tr_generated := []; tr_error := None |}.

(** The part after [self.test_runner.create_sandbox()], inside
    [try: ... finally: self.test_runner.cleanup()]. *)
Definition sandbox_body (dt : Daytona) (code_files test_files : FileSet)
    : M TestResults :=
  _ ← setup_environment dt code_files test_files;
  _ ← install_dependencies dt None;
  let test_command := detect_test_command (dict_merge code_files test_files) in
  test_result ← run_tests dt test_command;
  let '(exit_code, output) := test_result in
  mret {| tr_status := if bool_decide (exit_code = 0%Z) then "passed" else "failed";
          tr_exit_code := Some exit_code;
          tr_output := output;
          tr_generated := generated_tests test_files;
          tr_error := None |}.

(** The whole method; [ast_parse] is the parser used by
    [parse_imports_from_test_files]. Every statement that may raise is
    before the result is first mutated or is the last mutation's source, so
    the [except] branch sees [initial_test_results]. *)
Definition run_tests_in_daytona (gh : GitHub) (dt : Daytona)
    (ast_parse : string -> option (list import_node))
    (pr_number test_pr_number : Z) : M TestResults :=
  try_except
    (code_files ← prepare_files_from_pr gh pr_number true;
     test_files ← prepare_files_from_pr gh test_pr_number false;
     if bool_decide (test_files = ∅) then
       mret {| tr_status := "no_tests"; tr_exit_code := None; tr_output := "";
               tr_generated := []; tr_error := None |}
     else
       let imported_modules := parse_imports_from_test_files ast_parse test_files in
       code_files ← (if bool_decide (imported_modules = ∅) then mret code_files
                     else source_files ← fetch_source_files_from_imports gh pr_number
                                           imported_modules code_files;
                          mret (dict_merge code_files source_files));
       _ ← create_sandbox dt;
       try_finally (sandbox_body dt code_files test_files) (cleanup dt))
    (fun e =>
       mret {| tr_status := "error"; tr_exit_code := None; tr_output := "";
               tr_generated := []; tr_error := Some e |}).

(* ------------------------------------------------------------------ *)
(** ** The risk scorer: [GPTAnalyzer] *)

(** [GPTAnalyzer._analyze_code_type] *)
Definition analyze_code_type (code_files : FileSet) : string :=
  let kvs := map_to_list code_files in
  let file_names := py_lower (String.concat " " (map fst kvs)) in
  let content_sample :=
    if bool_decide (code_files = ∅) then ""
    else py_lower (String.concat " " (List.firstn 3 (map snd kvs))) in
  let combined := file_names ++ " " ++ content_sample in
  if any_in ["auth"; "login"; "token"; "password"; "session"] combined then "authentication"
  else if any_in ["db"; "database"; "sql"; "query"; "model"] combined then "database"
  else if any_in ["api"; "endpoint"; "route"; "handler"] combined then "api"
  else if any_in ["payment"; "stripe"; "paypal"; "billing"] combined then "payment"
  else "general".

Definition is_digit (c : ascii) : bool := char_in c 48 57.

Fixpoint digit_run (s : string) : string * string :=
  match s with
  | String c s' =>
      if is_digit c then let '(d, r) := digit_run s' in (String c d, r) else (EmptyString, s)
  | EmptyString => (EmptyString, EmptyString)
  end.

Fixpoint digits_value (acc : Z) (s : string) : Z :=
  match s with
  | EmptyString => acc
  | String c s' => digits_value (10 * acc + Z.of_nat (nat_of_ascii c - 48))%Z s'
  end.

(** [re.search(r'(\d+)\s+' + word, output)] and [int(group(1))]. *)
Fixpoint search_count (word s : string) : option Z :=
  match s with
  | EmptyString => None
  | String _ s' =>
      let '(d, rest) := digit_run s in
      let here :=
        match d, rest with
        | String _ _, String c r =>
            if is_py_space c && String.prefix word (lstrip r)
            then Some (digits_value 0 d) else None
        | _, _ => None
        end in
      match here with
      | Some n => Some n
      | None => search_count word s'
      end
  end.

(** The pass/fail counts of [_build_analysis_prompt]. *)
Definition test_counts (test_results : option TestResults) : Z * Z * Z :=
  match test_results with
  | None => (0, 0, 0)%Z
  | Some tr =>
      let output := tr_output tr in
      let passed := if py_in "passed" output then default 0%Z (search_count "passed" output) else 0%Z in
      let failed := if py_in "failed" output then default 0%Z (search_count "failed" output) else 0%Z in
      ((passed + failed)%Z, passed, failed)
  end.

Definition nl := String newline EmptyString.
Definition quoted (s : string) : string := String dquote (s ++ String dquote EmptyString).

Definition unlines (ls : list string) : string := String.concat nl ls.

(** The fixed tail of the prompt, from the JSON structure on. *)
Definition prompt_tail : string := unlines [
  "Provide a JSON response with the following structure:";
  "{";
  "    " ++ quoted "risk" ++ ": <number 0-100>,";
  "    " ++ quoted "confidence" ++ ": <number 0-100>,";
  "    " ++ quoted "reasoning" ++ ": " ++ quoted "<explanation>" ++ ",";
  "    " ++ quoted "reviewUpdates" ++ ": {";
  "        " ++ quoted "<review_name>" ++ ": {";
  "            " ++ quoted "risk" ++ ": <number 0-100>,";
  "            " ++ quoted "type" ++ ": " ++ quoted "<danger|warning|success|info>" ++ ",";
  "            " ++ quoted "description" ++ ": " ++ quoted "<updated description>";
  "        }";
  "    }";
  "}";
  "";
  "IMPORTANT: The reviewUpdates should match the review names from the Coderabbit reviews provided above. Update each review with appropriate risk scores and descriptions based on your analysis.";
  "";
  "Risk Assessment Guidelines:";
  "- Critical (80-100): Authentication, database operations, payment processing, security-sensitive code";
  "- High (60-79): API endpoints, data validation, file operations";
  "- Medium (40-59): Business logic, utilities, helpers";
  "- Low (0-39): UI changes, documentation, configuration";
  "";
  "Confidence Guidelines:";
  "- High (80-100): Many tests passed, comprehensive coverage";
  "- Medium (50-79): Some tests passed, moderate coverage";
  "- Low (0-49): Few/no tests passed, limited coverage";
  "";
  "Analyze each Coderabbit review and update risk scores based on:";
  "1. Code type (auth/DB = critical)";
  "2. Test coverage (more passed = higher confidence)";
  "3. Review severity (danger = high risk, warning = medium, success = low)";
  ""].

Definition none_subscript_msg := "TypeError: 'NoneType' object is not subscriptable".

(** [GPTAnalyzer._build_analysis_prompt]; [json_dumps] is
    [json.dumps(coderabbit_reviews, indent=2)]. [pr_info.get('body', 'N/A')]
    is [None] for a [null] body, and slicing it raises. *)
Definition build_analysis_prompt (json_dumps : list pydict -> string)
    (pr_info : PRInfo) (coderabbit_reviews : list pydict)
    (test_results : option TestResults) (code_files : FileSet) : exc string :=
  let code_type := analyze_code_type code_files in
  let '(test_count, passed_tests, failed_tests) := test_counts test_results in
  match pr_body pr_info with
  | None => Exc none_subscript_msg
  | Some body =>
      Ok (unlines [
        "Analyze this pull request and provide a risk assessment.";
        "";
        "PR Information:";
        "- Title: " ++ pr_title pr_info;
        "- Description: " ++ py_prefix 500 body;
        "- Code Type: " ++ code_type;
        "";
        "Coderabbit Reviews (" ++ pretty (length coderabbit_reviews) ++ "):";
        json_dumps coderabbit_reviews;
        "";
        "Test Results:";
        "- Status: " ++ (match test_results with Some tr => tr_status tr | None => "no_tests" end);
        "- Total Tests: " ++ pretty test_count;
        "- Passed: " ++ pretty passed_tests;
        "- Failed: " ++ pretty failed_tests;
        "- Output: " ++ (match test_results with Some tr => py_prefix 1000 (tr_output tr) | None => "N/A" end);
        "";
        "Code Files (" ++ pretty (size code_files) ++ "):";
        String.concat ", " (List.firstn 10 (map fst (map_to_list code_files)));
        "";
        prompt_tail])
  end.

(** The OpenAI collaborator: [response.choices[0].message.content] for a
    prompt ([None] when the message has no content), and [json.loads]. *)
Record OpenAI := {
  oa_complete : string -> exc (option string);
  oa_json_loads : string -> exc json;
  oa_json_dumps : list pydict -> string
}.

Definition default_analysis (err : string) : json :=
  JObj [("risk", JNum 50); ("confidence", JNum 0);
        ("reasoning", JStr ("Error in GPT analysis: " ++ err))].

(** [GPTAnalyzer.analyze_pr]: the prompt is built before the [try]. *)
Definition analyze_pr (oa : OpenAI) (pr_info : PRInfo) (coderabbit_reviews : list pydict)
    (test_results : option TestResults) (code_files : FileSet) : exc json :=
  match build_analysis_prompt (oa_json_dumps oa) pr_info coderabbit_reviews test_results code_files with
  | Exc e => Exc e
  | Ok prompt =>
      let call_result :=
        match oa_complete oa prompt with
        | Exc e => Exc e
        | Ok None => Exc "TypeError: the JSON object must be str, bytes or bytearray, not NoneType"
        | Ok (Some result_text) => oa_json_loads oa result_text
        end in
      match call_result with
      | Ok analysis => Ok analysis
      | Exc e => Ok (default_analysis e)
      end
  end.

(* ------------------------------------------------------------------ *)
(** ** Applying [reviewUpdates]: the loop at the end of [process_pr] *)

(** Python [==] on JSON values ([True == 1], [False == 0]); objects are
    compared entry by entry in order. *)
Fixpoint json_eqb (a b : json) : bool :=
  let fix list_eqb (l1 l2 : list json) : bool :=
    match l1, l2 with
    | [], [] => true
    | x :: l1', y :: l2' => json_eqb x y && list_eqb l1' l2'
    | _, _ => false
    end in
  let fix obj_eqb (l1 l2 : list (string * json)) : bool :=
    match l1, l2 with
    | [], [] => true
    | (k1, x) :: l1', (k2, y) :: l2' => String.eqb k1 k2 && json_eqb x y && obj_eqb l1' l2'
    | _, _ => false
    end in
  match a, b with
  | JNull, JNull => true
  | JBool x, JBool y => Bool.eqb x y
  | JNum x, JNum y => Z.eqb x y
  | JBool x, JNum y | JNum y, JBool x => Z.eqb y (if x then 1 else 0)
  | JStr x, JStr y => String.eqb x y
  | JArr x, JArr y => list_eqb x y
  | JObj x, JObj y => obj_eqb x y
  | _, _ => false
  end.

(** [review.get("name") in updates] *)
Definition name_in (name : option json) (updates : json) : exc bool :=
  match updates with
  | JObj u =>
      match name with
      | Some (JStr s) => Ok (bool_decide (is_Some (dict_get u s)))
      | Some (JArr _) => Exc "TypeError: unhashable type: 'list'"
      | Some (JObj _) => Exc "TypeError: unhashable type: 'dict'"
      | _ => Ok false
      end
  | JArr l => Ok (existsb (json_eqb (default JNull name)) l)
  | JStr t =>
      match name with
      | Some (JStr s) => Ok (py_in s t)
      | _ => Exc "TypeError: 'in <string>' requires string as left operand"
      end
  | _ => Exc "TypeError: argument of type is not iterable"
  end.

(** [updates[review["name"]]] once the membership test has passed. *)
Definition index_updates (updates : json) (name : string) : exc json :=
  match updates with
  | JObj u => match dict_get u name with Some v => Ok v | None => Exc ("KeyError: " ++ name) end
  | JArr _ => Exc "TypeError: list indices must be integers or slices, not str"
  | JStr _ => Exc "TypeError: string indices must be integers"
  | _ => Exc "TypeError: object is not subscriptable"
  end.

(** [review.update(v)]: a dict, or a sequence of [[key, value]] pairs with
    string keys. *)
Definition review_update (review : pydict) (v : json) : exc pydict :=
  match v with
  | JObj kv => Ok (dict_update review kv)
  | JArr items =>
      fold_left (fun acc item =>
        match acc, item with
        | Exc e, _ => Exc e
        | Ok d, JArr [JStr k; x] => Ok (dict_set d k x)
        | Ok _, _ => Exc "ValueError: dictionary update sequence element has length other than 2"
        end) items (Ok review)
  | JStr EmptyString => Ok review
  | JStr _ => Exc "ValueError: dictionary update sequence element #0 has length 1; 2 is required"
  | _ => Exc "TypeError: object is not iterable"
  end.

(** [analysis.get(k, d)] *)
Definition json_get (analysis : json) (k : string) (d : json) : exc json :=
  match analysis with
  | JObj o => Ok (default d (dict_get o k))
  | _ => Exc "AttributeError: object has no attribute 'get'"
  end.

(** The loop [for review in result["coderabbitReviews"]: ...]. The dicts
    are updated in place, so an exception leaves the earlier reviews
    updated: the result is the list as it stands and the exception raised,
    if any. *)
Fixpoint apply_updates_loop (updates : json) (reviews : list pydict)
    : list pydict * option string :=
  match reviews with
  | [] => ([], None)
  | review :: rest =>
      match name_in (dict_get review "name") updates with
      | Exc e => (review :: rest, Some e)
      | Ok false =>
          let '(rest', err) := apply_updates_loop updates rest in (review :: rest', err)
      | Ok true =>
          let step :=
            match dict_get review "name" with
            | Some (JStr n) =>
                match index_updates updates n with
                | Ok v => review_update review v
                | Exc e => Exc e
                end
            | _ => Exc "KeyError: name"
            end in
          match step with
          | Exc e => (review :: rest, Some e)
          | Ok review' =>
              let '(rest', err) := apply_updates_loop updates rest in (review' :: rest', err)
          end
      end
  end.

Definition apply_review_updates (reviews : list pydict) (analysis : json)
    : list pydict * option string :=
  match json_get analysis "reviewUpdates" (JObj []) with
  | Exc e => (reviews, Some e)
  | Ok updates => apply_updates_loop updates reviews
  end.

(* ------------------------------------------------------------------ *)
(** ** The orchestrator: [PRProcessor.process_pr] *)

(** The result dict of [process_pr]; [testError] and [gptError] are
    present only when set. *)
Record PRResult := {
  res_id : Z;
  res_title : string;
  res_link : string;
  res_risk : json;
  res_reviews : list pydict;
  res_generated : list Descriptor;
  res_test_results : option TestResults;
  res_test_error : option string;
  res_gpt_error : option string
}.

(** The risk scorer as the orchestrator calls it. *)
Definition Analyzer := PRInfo -> list pydict -> option TestResults -> FileSet -> exc json.

(** The collaborators given to [PRProcessor.__init__]: the test runner and
    the analyzer are [None] when their stage is disabled. *)
Record Processor := {
  p_github : GitHub;
  p_test_runner : option Daytona;
  p_gpt_analyzer : option Analyzer;
  p_ast_parse : string -> option (list import_node)
}.

Definition with_risk (r : PRResult) (risk : json) : PRResult :=
  {| res_id := res_id r; res_title := res_title r; res_link := res_link r;
     res_risk := risk; res_reviews := res_reviews r; res_generated := res_generated r;
     res_test_results := res_test_results r; res_test_error := res_test_error r;
     res_gpt_error := res_gpt_error r |}.

Definition with_reviews (r : PRResult) (reviews : list pydict) (gpt_error : option string) : PRResult :=
  {| res_id := res_id r; res_title := res_title r; res_link := res_link r;
     res_risk := res_risk r; res_reviews := reviews; res_generated := res_generated r;
     res_test_results := res_test_results r; res_test_error := res_test_error r;
     res_gpt_error := gpt_error |}.

Definition with_tests (r : PRResult) (tr : TestResults) : PRResult :=
  {| res_id := res_id r; res_title := res_title r; res_link := res_link r;
     res_risk := res_risk r; res_reviews := res_reviews r; res_generated := tr_generated tr;
     res_test_results := Some tr; res_test_error := res_test_error r;
     res_gpt_error := res_gpt_error r |}.

Definition with_test_error (r : PRResult) (e : string) : PRResult :=
  {| res_id := res_id r; res_title := res_title r; res_link := res_link r;
     res_risk := res_risk r; res_reviews := res_reviews r; res_generated := res_generated r;
     res_test_results := res_test_results r; res_test_error := Some e;
     res_gpt_error := res_gpt_error r |}.

(** Step 2: trigger, wait, locate the test PR and run its tests. *)
Definition test_stage (p : Processor) (dt : Daytona) (pr_number : Z) (result : PRResult)
    : M PRResult :=
  let gh := p_github p in
  try_except
    (_ ← call (gh_trigger_unit_test_generation gh pr_number);
     test_pr ← call (gh_find_coderabbit_test_pr gh pr_number);
     match test_pr with
     | Some test_pr_number =>
         test_results ← run_tests_in_daytona gh dt (p_ast_parse p) pr_number test_pr_number;
         mret (with_tests result test_results)
     | None => mret result
     end)
    (fun e => mret (with_test_error result e)).

(** Step 4: [code_files] is evaluated before [analyze_pr] is called; the
    risk is stored before the review loop runs. *)
Definition gpt_stage (p : Processor) (an : Analyzer) (pr_number : Z) (pr_info : PRInfo)
    (result : PRResult) : M PRResult :=
  try_except
    (code_files ← prepare_files_from_pr (p_github p) pr_number true;
     analysis ← call (an pr_info (res_reviews result) (res_test_results result) code_files);
     risk ← call (json_get analysis "risk" (JNum 0));
     mret (inl (analysis, risk)))
    (fun e => mret (inr e)) ≫= fun (r : (json * json) + string) =>
  match r with
  | inr e => mret (with_reviews result (res_reviews result) (Some e))
  | inl (analysis, risk) =>
      let result := with_risk result risk in
      let '(reviews, err) := apply_review_updates (res_reviews result) analysis in
      mret (with_reviews result reviews
              (match err with Some e => Some e | None => res_gpt_error result end))
  end.

Definition process_pr (p : Processor) (pr_number : Z) (skip_tests skip_gpt : bool)
    : M PRResult :=
  let gh := p_github p in
  call (gh_get_pr_info gh pr_number) ≫= fun (pr_info : PRInfo) =>
  call (gh_check_coderabbit_review gh pr_number) ≫= fun (has_review : bool) =>
  (if has_review then
     comments ← call (gh_get_coderabbit_comments gh pr_number);
     mret (omap extract_review_info comments)
   else mret []) ≫= fun (reviews : list pydict) =>
  let result :=
    {| res_id := pr_number; res_title := pr_title pr_info; res_link := pr_html_url pr_info;
       res_risk := JNum 0; res_reviews := reviews; res_generated := [];
       res_test_results := None; res_test_error := None; res_gpt_error := None |} in
  (match p_test_runner p with
   | Some dt => if negb skip_tests then test_stage p dt pr_number result else mret result
   | None => mret result
   end) ≫= fun (result : PRResult) =>
  match p_gpt_analyzer p with
  | Some an => if negb skip_gpt then gpt_stage p an pr_number pr_info result else mret result
  | None => mret result
  end.

(* ------------------------------------------------------------------ *)
(** ** The batch driver: the loop of [main] *)

(** An entry of [list_prs(...)]: [number], [title], [html_url]. *)
Record PRListing := {
  pl_number : Z;
  pl_title : string;
  pl_html_url : string
}.

(** An element of [results["pullRequests"]]. *)
Inductive Entry :=
| Processed (r : PRResult)
| ErrorEntry (id : Z) (title link error : string).

Definition entry_id (e : Entry) : Z :=
  match e with Processed r => res_id r | ErrorEntry id _ _ _ => id end.

(** The [risk] field of an entry; an error entry carries [0]. *)
Definition entry_risk (e : Entry) : json :=
  match e with Processed r => res_risk r | ErrorEntry _ _ _ _ => JNum 0 end.

(** [for i, pr in enumerate(prs, 1): try: ... except Exception: ...];
    [save] is [save_results(output_dir, results)]. The appended PR result
    stays when the checkpoint save raises, and an error entry follows it. *)
Fixpoint batch_loop (p : Processor) (skip_tests skip_gpt : bool)
    (save : list Entry -> exc unit) (i : nat) (prs : list PRListing)
    (results : list Entry) : M (list Entry) :=
  match prs with
  | [] => mret results
  | pr :: prs' =>
      let error_entry e := ErrorEntry (pl_number pr) (pl_title pr) (pl_html_url pr) e in
      try_except (r ← process_pr p (pl_number pr) skip_tests skip_gpt; mret (inl r))
                 (fun e => mret (inr e)) ≫= fun (o : PRResult + string) =>
      match o with
      | inr e => batch_loop p skip_tests skip_gpt save (S i) prs' (results ++ [error_entry e])%list
      | inl pr_result =>
          let results := (results ++ [Processed pr_result])%list in
          try_except (_ ← (if Nat.eqb (i mod 5) 0 then call (save results) else mret tt);
                      mret None)
                     (fun e => mret (Some e)) ≫= fun (s : option string) =>
          match s with
          | None => batch_loop p skip_tests skip_gpt save (S i) prs' results
          | Some e => batch_loop p skip_tests skip_gpt save (S i) prs' (results ++ [error_entry e])%list
          end
      end
  end.

Definition batch (p : Processor) (skip_tests skip_gpt : bool)
    (save : list Entry -> exc unit) (prs : list PRListing) : M (list Entry) :=
  batch_loop p skip_tests skip_gpt save 1 prs [].


(* ------------------------------------------------------------------ *)
(** ** The GitHub client: [GitHubAPIClient] lookups *)

(** Sequencing of two Python steps that may raise. *)
Definition exc_bind {A B} (r : exc A) (k : A -> exc B) : exc B :=
  match r with Ok a => k a | Exc e => Exc e end.

(** The raw endpoints of [GitHubAPIClient], each after [raise_for_status]
    and [response.json()]: [get_pr_info], [get_pr_issue_comments],
    [get_pr_comments], [get_pr_reviews] and [list_prs(state=...)]. *)
Record GitHubAPI := {
  api_get_pr_info : Z -> exc json;
  api_get_pr_issue_comments : Z -> exc (list json);
  api_get_pr_comments : Z -> exc (list json);
  api_get_pr_reviews : Z -> exc (list json);
  api_list_prs : string -> exc (list json)
}.

(** [v.lower()] on a JSON value. *)
Definition json_lower (v : json) : exc string :=
  match v with
  | JStr s => Ok (py_lower s)
  | JNull => Exc "'NoneType' object has no attribute 'lower'"
  | _ => Exc "object has no attribute 'lower'"
  end.

(** [d.get(k, '').lower()] *)
Definition lower_field (d : json) (k : string) : exc string :=
  exc_bind (json_get d k (JStr "")) json_lower.

(** [comment.get('user', {}).get('login', '').lower()] *)
Definition user_login (comment : json) : exc string :=
  exc_bind (json_get comment "user" (JObj [])) (fun user => lower_field user "login").

(** [for c in cs: if 'coderabbit' in user(c): return True]; [Ok false]
    when the loop runs to its end. *)
Fixpoint any_coderabbit (cs : list json) : exc bool :=
  match cs with
  | [] => Ok false
  | c :: cs' =>
      exc_bind (user_login c) (fun user =>
        if py_in "coderabbit" user then Ok true else any_coderabbit cs')
  end.

(** [GitHubAPIClient.check_coderabbit_review]: issue comments, then
    review comments, then reviews, each list requested only when the
    earlier ones had no bot entry. *)
Definition check_coderabbit_review (api : GitHubAPI) (pr_number : Z) : exc bool :=
  exc_bind (api_get_pr_issue_comments api pr_number) (fun comments =>
  exc_bind (any_coderabbit comments) (fun found =>
  if found then Ok true else
  exc_bind (api_get_pr_comments api pr_number) (fun review_comments =>
  exc_bind (any_coderabbit review_comments) (fun found =>
  if found then Ok true else
  exc_bind (api_get_pr_reviews api pr_number) (fun reviews =>
  any_coderabbit reviews))))).

(** The comments of [cs] whose user is the bot, in order. *)
Fixpoint filter_coderabbit (cs : list json) : exc (list json) :=
  match cs with
  | [] => Ok []
  | c :: cs' =>
      exc_bind (user_login c) (fun user =>
      exc_bind (filter_coderabbit cs') (fun rest =>
        Ok (if py_in "coderabbit" user then c :: rest else rest)))
  end.

(** [GitHubAPIClient.get_coderabbit_comments]: bot issue comments, then
    bot review comments; reviews are not read. *)
Definition get_coderabbit_comments (api : GitHubAPI) (pr_number : Z) : exc (list json) :=
  exc_bind (api_get_pr_issue_comments api pr_number) (fun comments =>
  exc_bind (filter_coderabbit comments) (fun l1 =>
  exc_bind (api_get_pr_comments api pr_number) (fun review_comments =>
  exc_bind (filter_coderabbit review_comments) (fun l2 =>
  Ok (l1 ++ l2)%list)))).

(** The keyword list of [find_coderabbit_test_pr]. *)
Definition test_pr_keywords (original_pr_number : Z) : list string :=
  ["unit test"; "test for pr"; "generated test"; "coderabbit";
   "pr #" ++ pretty original_pr_number; "pr " ++ pretty original_pr_number].

(** One of the two [for pr in prs] loops of [find_coderabbit_test_pr]. *)
Fixpoint scan_test_prs (original_pr_number : Z) (prs : list json) : exc (option json) :=
  match prs with
  | [] => Ok None
  | pr :: prs' =>
      exc_bind (lower_field pr "title") (fun title =>
      exc_bind (lower_field pr "body") (fun body =>
      exc_bind (json_get pr "number" JNull) (fun pr_number =>
      if json_eqb pr_number (JNum original_pr_number) then
        scan_test_prs original_pr_number prs'
      else if existsb (fun k => py_in k title || py_in k body)
                      (test_pr_keywords original_pr_number) then
        exc_bind (user_login pr) (fun user =>
          if py_in "coderabbit" user || py_in "bot" user then Ok (Some pr)
          else scan_test_prs original_pr_number prs')
      else scan_test_prs original_pr_number prs')))
  end.

(** [GitHubAPIClient.find_coderabbit_test_pr]: the open PRs, then the
    first ten closed ones. *)
Definition find_coderabbit_test_pr (api : GitHubAPI) (original_pr_number : Z)
    : exc (option json) :=
  exc_bind (api_get_pr_info api original_pr_number) (fun _ =>
  exc_bind (api_list_prs api "open") (fun prs =>
  exc_bind (scan_test_prs original_pr_number prs) (fun found =>
  match found with
  | Some pr => Ok (Some pr)
  | None =>
      exc_bind (api_list_prs api "closed") (fun prs =>
      scan_test_prs original_pr_number (firstn 10 prs))
  end))).

(* ------------------------------------------------------------------ *)
(** ** The command line of [main] *)

(** [main.parse_repo_name] *)
Definition parse_repo_name (repo_name : string) : exc (string * string) :=
  let err := Exc ("Invalid repo format: " ++ repo_name ++ ". Expected format: 'owner/repo'") in
  if py_in "/" repo_name then
    match split_on slash repo_name with
    | [owner; repo] => Ok (owner, repo)
    | _ => err
    end
  else err.

(** [l[:n]] for an integer [n]; a negative [n] counts from the end. *)
Definition py_slice_to {A} (n : Z) (l : list A) : list A :=
  if (0 <=? n)%Z then firstn (Z.to_nat n) l
  else firstn (Z.to_nat (Z.of_nat (length l) + n)) l.

(** The listing of [main]: [--state all] lists the open PRs and then the
    closed ones. *)
Definition list_all_prs (list_prs : string -> exc (list PRListing)) (state : string)
    : exc (list PRListing) :=
  if String.eqb state "all" then
    exc_bind (list_prs "open") (fun open_prs =>
    exc_bind (list_prs "closed") (fun closed_prs =>
    Ok (open_prs ++ closed_prs)%list))
  else list_prs state.

(** [if args.max_prs: prs = prs[:args.max_prs]] *)
Definition limit_prs (max_prs : option Z) (prs : list PRListing) : list PRListing :=
  match max_prs with
  | Some n => if Z.eqb n 0 then prs else py_slice_to n prs
  | None => prs
  end.

(** The PRs [main] goes on to process. *)
Definition select_prs (list_prs : string -> exc (list PRListing)) (state : string)
    (max_prs : option Z) : exc (list PRListing) :=
  exc_bind (list_all_prs list_prs state) (fun prs => Ok (limit_prs max_prs prs)).

(* ------------------------------------------------------------------ *)
(** ** Predicates for the client and resolver facts *)

(** What [find_coderabbit_test_pr] checks of a PR it returns: its
    [number] is not the original PR's, its lower-cased title or body
    contains one of the keywords, and its lower-cased user login contains
    "coderabbit" or "bot". *)
Definition test_pr_qualifies (original_pr_number : Z) (pr : json) : Prop :=
  (∃ num, json_get pr "number" JNull = Ok num ∧ json_eqb num (JNum original_pr_number) = false) ∧
  (∃ title body, lower_field pr "title" = Ok title ∧ lower_field pr "body" = Ok body ∧
     ∃ k, k ∈ test_pr_keywords original_pr_number ∧ (py_in k title || py_in k body) = true) ∧
  (∃ user, user_login pr = Ok user ∧ (py_in "coderabbit" user || py_in "bot" user) = true).

(** A module set holding the top-level package of each dotted module. *)
Definition closed_under_first_segment (s : gset string) : Prop :=
  ∀ m, m ∈ s -> py_in "." m = true -> first_segment m ∈ s.

(** The filter of [detect_test_command]: paths naming a test or a spec. *)
Definition is_test_file_path (f : string) : bool :=
  py_in "test" (py_lower f) || py_in "spec" (py_lower f).

(* ------------------------------------------------------------------ *)
(** ** Predicates for the resolver loops *)

(** The paths of the successful [get_file_content] calls of a trace. *)
Fixpoint ok_fetches (tr : list event) : list string :=
  match tr with
  | [] => []
  | EFetch p true :: tr' => p :: ok_fetches tr'
  | _ :: tr' => ok_fetches tr'
  end.

Ltac unfold_M :=
  unfold mbind, M_bind, mret, M_ret, try_except, call, raise in *.

(** One file's module scan returns the dict unchanged or with that file
    added, and succeeds in fetching at most that one file. *)
Definition scan_step_spec (fp : string) (sf : FileSet) (res : exc FileSet * St)
    (st : St) : Prop :=
  ∃ tr, st_trace res.2 = (st_trace st ++ tr)%list ∧ st_sandbox res.2 = st_sandbox st ∧
    ((res.1 = Ok sf ∧ ok_fetches tr = []) ∨
     (∃ c, res.1 = Ok (<[fp := c]> sf) ∧ ok_fetches tr = [fp])).

(** How a resolver loop grows [source_files] from [sf] to [sf'] while its
    calls append [tr] to the trace: every successful fetch is of a path not
    yet in the dict and ends up in it, no path is fetched twice, and every
    new key satisfies [good] and is not in [existing]. *)
Definition grows (good : string -> Prop) (existing sf sf' : FileSet)
    (tr : list event) : Prop :=
  NoDup (ok_fetches tr) ∧
  (∀ p, p ∈ ok_fetches tr → sf !! p = None ∧ is_Some (sf' !! p)) ∧
  (∀ p, is_Some (sf !! p) → is_Some (sf' !! p)) ∧
  (∀ p, is_Some (sf' !! p) → is_Some (sf !! p) ∨ (good p ∧ existing !! p = None)).

Definition loop_spec (good : string -> Prop) (existing sf : FileSet)
    (res : exc FileSet * St) (st : St) : Prop :=
  ∃ sf' tr, res.1 = Ok sf' ∧ st_trace res.2 = (st_trace st ++ tr)%list ∧
    st_sandbox res.2 = st_sandbox st ∧ grows good existing sf sf' tr.

Definition no_test (p : string) : Prop := py_in "test" (py_lower p) = false.

(** The classification rule as an ordered list of (keywords, outcome)
    pairs tried top to bottom against the lower-cased body; no match gives
    [info]. *)
Definition severity_rules : list (list string * string) :=
  [(["error"; "bug"; "security"; "vulnerability"], "danger");
   (["warning"; "suggestion"; "improvement"], "warning");
   (["good"; "approved"; "passed"], "success")].

Fixpoint first_match (rules : list (list string * string)) (lower : string) : string :=
  match rules with
  | [] => "info"
  | (keys, outcome) :: rules' =>
      if existsb (fun k => py_in k lower) keys then outcome else first_match rules' lower
  end.

(** The characters a plain Python string literal does not keep as they
    are: backslash, newline, carriage return and NUL. *)
Definition literal_special (c : ascii) : bool :=
  Ascii.eqb c backslash || Ascii.eqb c newline || Ascii.eqb c cr || Ascii.eqb c nul.

Fixpoint no_literal_special (s : string) : bool :=
  match s with
  | EmptyString => true
  | String c s' => negb (literal_special c) && no_literal_special s'
  end.

(** A computation that only appends to the trace and creates no sandbox. *)
Definition no_create {A} (m : M A) : Prop :=
  ∀ st, ∃ tr, st_trace (m st).2 = (st_trace st ++ tr)%list ∧ ECreateSandbox ∉ tr.

(** A computation that leaves [TestRunner.sandbox] alone and only appends
    to the trace. *)
Definition keeps_sandbox {A} (m : M A) : Prop :=
  ∀ st, st_sandbox (m st).2 = st_sandbox st ∧
        ∃ tr, st_trace (m st).2 = (st_trace st ++ tr)%list.

(** Whenever the calls of [m] include a sandbox creation, the last call
    is the deletion of sandbox [h]. *)
Definition disposes {A} (h : Z) (m : M A) : Prop :=
  ∀ st, ∃ tr, st_trace (m st).2 = (st_trace st ++ tr)%list ∧
    (ECreateSandbox ∈ tr -> ∃ tr0, tr = (tr0 ++ [EDeleteSandbox h])%list).

(** [Q] holds of every value [m] returns normally. *)
Definition post {A} (m : M A) (Q : A -> Prop) : Prop :=
  ∀ st a st', m st = (Ok a, st') -> Q a.

(** [risk] is what [analysis.get("risk", 0)] gave on an analysis the
    enabled risk scorer returned. *)
Definition risk_from_scorer (p : Processor) (skip_gpt : bool) (risk : json) : Prop :=
  ∃ an, p_gpt_analyzer p = Some an ∧ skip_gpt = false ∧
    ∃ pr_info reviews test_results code_files analysis,
      an pr_info reviews test_results code_files = Ok analysis ∧
      json_get analysis "risk" (JNum 0) = Ok risk.

(** The entries one PR adds to [results["pullRequests"]]: an error entry,
    or its result (followed by an error entry when the checkpoint save
    raised). *)
Definition block_ok (pr : PRListing) (blk : list Entry) : Prop :=
  let error_entry e := ErrorEntry (pl_number pr) (pl_title pr) (pl_html_url pr) e in
  (∃ e, blk = [error_entry e]) ∨
  (∃ r, res_id r = pl_number pr ∧ (blk = [Processed r] ∨ ∃ e, blk = [Processed r; error_entry e])).

Definition risk_ok (p : Processor) (skip_gpt : bool) (e : Entry) : Prop :=
  entry_risk e ≠ JNum 0 -> ∃ r, e = Processed r ∧ risk_from_scorer p skip_gpt (res_risk r).

(* ------------------------------------------------------------------ *)
(** ** Concrete inputs *)

Definition st0 : St := {| st_sandbox := None; st_trace := [] |}.

Definition ex_pr_info (body : option string) : PRInfo :=
  {| pr_title := "Add payment processor"; pr_body := body;
     pr_html_url := "https://github.com/o/r/pull/3"; pr_head_sha := "abc123";
     pr_head_ref := "feature" |}.

Definition ex_test_src : string :=
  "import pytest" ++ nl ++ "from payment.processor import pay" ++ nl ++ nl ++
  "def test_pay_ok():" ++ nl ++ "    assert pay()".

(** A repository whose branch has a package [app] with two modules, a
    test file named after it, and the module [payment.processor]; PR 4
    adds the test file. *)
Definition ex_github : GitHub := {|
  gh_get_pr_info := fun _ => Ok (ex_pr_info (Some "Adds a payment processor"));
  gh_tree := fun _ =>
    Ok ["app/a.py"; "tests/app.py"; "app/b.py"; "payment/processor.py"; "README.md"];
  gh_get_file_content := fun p _ =>
    if String.eqb p "tests/test_payment.py" then Ok ex_test_src else Ok ("# " ++ p);
  gh_get_pr_files := fun n =>
    if Z.eqb n 4 then Ok [{| fi_filename := "tests/test_payment.py"; fi_status := "added" |}]
    else Ok [];
  gh_check_coderabbit_review := fun _ => Ok true;
  gh_get_coderabbit_comments := fun _ => Ok [];
  gh_trigger_unit_test_generation := fun _ => Ok tt;
  gh_find_coderabbit_test_pr := fun _ => Ok (Some 4%Z) |}.

Definition ex_ast_parse (_ : string) : option (list import_node) :=
  Some [ImportNode ["pytest"]; ImportFromNode (Some "payment.processor")].

(** A sandbox whose dependency installation raises and whose deletion
    raises too. *)
Definition ex_daytona : Daytona := {|
  dt_create := Ok 7%Z;
  dt_code_run := fun _ s =>
    match s with SInstall _ => Exc "pip install failed" | _ => Ok (0%Z, "") end;
  dt_delete := fun _ => Exc "sandbox already deleted" |}.

(** An OpenAI client whose request fails. *)
Definition ex_openai_down : OpenAI := {|
  oa_complete := fun _ => Exc "Connection error.";
  oa_json_loads := fun _ => Ok (JObj []);
  oa_json_dumps := fun _ => "[]" |}.

Definition ex_comment : Comment :=
  {| c_body := "Security: this looks good"; c_login := "coderabbitai[bot]" |}.

Definition ex_review : pydict :=
  [("name", JStr "Coderabbit Review"); ("type", JStr "danger");
   ("description", JStr "Security: this looks good")].

Definition ex_comments : list Comment :=
  [ex_comment; {| c_body := "Nice refactor"; c_login := "alice" |};
   {| c_body := "Consider a suggestion"; c_login := "coderabbitai[bot]" |}].

Definition ex_analysis : pydict :=
  [("risk", JNum 35);
   ("reviewUpdates", JObj [("Coderabbit Review", JObj [("type", JStr "warning")])])].

(** A test file that [ast.parse] rejects: the parenthesis is never closed. *)
Definition ex_broken_test : string := "import app.auth" ++ nl ++ "x = (".

Definition cmd_with_quotes : string :=
  "echo 'it'" ++ String squote "s' " ++ String dquote "x" ++ String dquote "".

Definition cmd_with_backslash : string := "printf a" ++ String backslash "nb".

(** A GitHub user object. *)
Definition ex_user (login : string) : json := JObj [("login", JStr login)].

Definition ex_bot_comment : json :=
  JObj [("user", ex_user "CodeRabbitAI[bot]"); ("body", JStr "Walkthrough")].

(** The open PR the bot opened with the tests for PR 3; [body] is its
    description. *)
Definition ex_test_pr (body : json) : json :=
  JObj [("number", JNum 4); ("title", JStr "Unit tests for PR #3"); ("body", body);
        ("user", ex_user "coderabbitai[bot]")].

(** The GitHub API of a repository where PR 3 has a comment by a person
    and one by the bot, and the only open PR is [ex_test_pr body]. *)
Definition ex_api (body : json) : GitHubAPI := {|
  api_get_pr_info := fun n => Ok (JObj [("number", JNum n)]);
  api_get_pr_issue_comments := fun _ =>
    Ok [JObj [("user", ex_user "alice"); ("body", JStr "LGTM")]; ex_bot_comment];
  api_get_pr_comments := fun _ => Ok [];
  api_get_pr_reviews := fun _ => Ok [];
  api_list_prs := fun state =>
    if String.eqb state "open" then Ok [ex_test_pr body]
    else Ok [JObj [("number", JNum 3); ("title", JStr "Add payment processor");
                   ("body", JNull); ("user", ex_user "alice")]] |}.

(** [ex_github] on a branch whose tree cannot be listed. *)
Definition ex_github_no_tree : GitHub := {|
  gh_get_pr_info := gh_get_pr_info ex_github;
  gh_tree := fun _ => Exc "404 Client Error: Not Found";
  gh_get_file_content := gh_get_file_content ex_github;
  gh_get_pr_files := gh_get_pr_files ex_github;
  gh_check_coderabbit_review := gh_check_coderabbit_review ex_github;
  gh_get_coderabbit_comments := gh_get_coderabbit_comments ex_github;
  gh_trigger_unit_test_generation := gh_trigger_unit_test_generation ex_github;
  gh_find_coderabbit_test_pr := gh_find_coderabbit_test_pr ex_github |}.

Definition ex_processor (an : option Analyzer) : Processor := {|
  p_github := ex_github; p_test_runner := Some ex_daytona;
  p_gpt_analyzer := an; p_ast_parse := ex_ast_parse |}.

(** A scorer that answers with a JSON list instead of an object. *)
Definition ex_analyzer_list : Analyzer := fun _ _ _ _ => Ok (JArr [JNum 35]).

Definition ex_result : PRResult := {|
  res_id := 3; res_title := "Add payment processor";
  res_link := "https://github.com/o/r/pull/3"; res_risk := JNum 0;
  res_reviews := [ex_review]; res_generated := []; res_test_results := None;
  res_test_error := None; res_gpt_error := None |}.



Definition ex_listing (n : Z) : PRListing :=
  {| pl_number := n; pl_title := "PR"; pl_html_url := "" |}.

Definition ex_list_prs (state : string) : exc (list PRListing) :=
  if String.eqb state "open" then Ok [ex_listing 5; ex_listing 4]
  else Ok [ex_listing 3; ex_listing 2; ex_listing 1].

Definition ex_unittest_files : FileSet :=
  {["tests/test_cart.py" := "import unittest"; "cart.py" := "x = 1"]}.

(* ------------------------------------------------------------------ *)
(** ** Facts about the resolver loops *)

Lemma ok_fetches_app tr1 tr2 :
  ok_fetches (tr1 ++ tr2)%list = (ok_fetches tr1 ++ ok_fetches tr2)%list.
Proof.
  induction tr1 as [|e tr1 IH]; [done|].
  destruct e as [| | |p []]; simpl; rewrite ?IH; done.
Qed.

Lemma try_fetch_eq gh p ref st :
  try_fetch gh p ref st =
  match gh_get_file_content gh p ref with
  | Ok c => (Ok (Some c), log (EFetch p true) st)
  | Exc _ => (Ok None, log (EFetch p false) st)
  end.
Proof.
  unfold try_fetch, get_file_content. unfold_M.
  destruct (gh_get_file_content gh p ref); done.
Qed.

Lemma scan_modules_tree_spec gh sha fp mods sf st :
  scan_step_spec fp sf (scan_modules_tree gh sha fp mods sf st) st.
Proof.
  revert st. induction mods as [|m mods IH]; intros st; simpl.
  - exists []. rewrite app_nil_r. auto 6.
  - assert (Hf : ∀ k : M FileSet,
      (∀ st', scan_step_spec fp sf (k st') st') →
      scan_step_spec fp sf
        ((r ← try_fetch gh fp sha;
          match r with
          | Some content => mret (<[fp:=content]> sf)
          | None => k
          end) st) st).
    { intros k Hk. unfold_M. rewrite try_fetch_eq.
      destruct (gh_get_file_content gh fp sha) as [c|e].
      - exists [EFetch fp true]. split; [done|]. split; [done|]. right. eauto.
      - destruct (Hk (log (EFetch fp false) st)) as (tr & Htr & Hsb & Hr).
        exists (EFetch fp false :: tr). simpl in *.
        rewrite Htr, <- app_assoc. split; [done|]. split; [done|]. exact Hr. }
    destruct (_ || _); [apply Hf, IH|].
    destruct (in_list _ _); [apply Hf, IH|apply IH].
Qed.

Lemma scan_modules_fallback_spec gh sha fp mods sf st :
  scan_step_spec fp sf (scan_modules_fallback gh sha fp mods sf st) st.
Proof.
  revert st. induction mods as [|m mods IH]; intros st; simpl.
  - exists []. rewrite app_nil_r. auto 6.
  - destruct (_ || _); [|apply IH].
    unfold_M. rewrite try_fetch_eq.
    destruct (gh_get_file_content gh fp sha) as [c|e].
    + exists [EFetch fp true]. split; [done|]. split; [done|]. right. eauto.
    + destruct (IH (log (EFetch fp false) st)) as (tr & Htr & Hsb & Hr).
      exists (EFetch fp false :: tr). simpl in *.
      rewrite Htr, <- app_assoc. split; [done|]. split; [done|]. exact Hr.
Qed.

Lemma grows_refl good existing sf : grows good existing sf sf [].
Proof.
  split; [constructor|]. split; [|split].
  - intros p Hp. simpl in Hp. set_solver.
  - auto.
  - auto.
Qed.

Lemma grows_trans good existing sf sf1 sf2 tr1 tr2 :
  grows good existing sf sf1 tr1 → grows good existing sf1 sf2 tr2 →
  grows good existing sf sf2 (tr1 ++ tr2)%list.
Proof.
  intros (N1 & F1 & M1 & K1) (N2 & F2 & M2 & K2).
  unfold grows. rewrite ok_fetches_app. split; [|split; [|split]].
  - apply NoDup_app. split; [done|]. split; [|done].
    intros p Hp1 Hp2. destruct (F1 p Hp1) as [_ HS]. destruct (F2 p Hp2) as [HN _].
    rewrite HN in HS. by destruct HS.
  - intros p [Hp|Hp]%elem_of_app.
    + destruct (F1 p Hp) as [HN HS]. eauto.
    + destruct (F2 p Hp) as [HN HS]. split; [|done].
      destruct (sf !! p) eqn:E; [|done].
      destruct (M1 p) as [c' Hc']; [by eexists|]. congruence.
  - eauto.
  - intros p Hp. destruct (K2 p Hp) as [H|H]; [|by right]. by apply K1.
Qed.

Lemma grows_insert good existing sf fp c :
  sf !! fp = None → existing !! fp = None → good fp →
  grows good existing sf (<[fp := c]> sf) [EFetch fp true].
Proof.
  intros Hn He Hg. split; [|split; [|split]]; simpl.
  - constructor; [set_solver|constructor].
  - intros p Hp. apply list_elem_of_singleton in Hp as ->.
    rewrite lookup_insert_eq. eauto.
  - intros p Hp. destruct (decide (p = fp)) as [->|Hne].
    + rewrite lookup_insert_eq. eauto.
    + by rewrite lookup_insert_ne.
  - intros p Hp. destruct (decide (p = fp)) as [->|Hne].
    + by right.
    + left. by rewrite lookup_insert_ne in Hp.
Qed.

(** A fetched file is of a path with no successful fetch in [tr]. *)
Lemma grows_of_step good existing fp sf res st :
  sf !! fp = None → existing !! fp = None → good fp →
  scan_step_spec fp sf res st →
  ∃ sf' tr, res.1 = Ok sf' ∧ st_trace res.2 = (st_trace st ++ tr)%list ∧
    st_sandbox res.2 = st_sandbox st ∧ grows good existing sf sf' tr.
Proof.
  intros Hn He Hg (tr & Htr & Hsb & [[Hr Hf]|(c & Hr & Hf)]).
  - exists sf, tr. do 3 (split; [done|]).
    pose proof (grows_refl good existing sf) as (N & F & Mo & K).
    split; [|split; [|split]]; rewrite ?Hf; auto.
  - exists (<[fp:=c]> sf), tr. do 3 (split; [done|]).
    pose proof (grows_insert good existing sf fp c Hn He Hg) as (N & F & Mo & K).
    split; [|split; [|split]]; rewrite ?Hf; auto.
Qed.

Lemma loop_spec_bind good existing fp sf st (step : M FileSet)
    (k : FileSet -> M FileSet) :
  sf !! fp = None → existing !! fp = None → good fp →
  scan_step_spec fp sf (step st) st →
  (∀ sf1 st1, loop_spec good existing sf1 (k sf1 st1) st1) →
  loop_spec good existing sf ((sf1 ← step; k sf1) st) st.
Proof.
  intros Hn He Hg Hstep Hk.
  destruct (grows_of_step good existing fp sf (step st) st Hn He Hg Hstep)
    as (sf1 & tr1 & Hr1 & Htr1 & Hsb1 & G1).
  unfold_M. destruct (step st) as [r1 st1]. simpl in *. subst r1.
  destruct (Hk sf1 st1) as (sf2 & tr2 & Hr2 & Htr2 & Hsb2 & G2).
  exists sf2, (tr1 ++ tr2)%list. split; [done|]. split.
  - by rewrite Htr2, Htr1, app_assoc.
  - split; [congruence|]. by eapply grows_trans.
Qed.

Lemma skip_cond_false (existing sf : FileSet) fp :
  (bool_decide (is_Some (existing !! fp)) || bool_decide (is_Some (sf !! fp))) = false →
  existing !! fp = None ∧ sf !! fp = None.
Proof.
  intros H. apply orb_false_iff in H as [H1 H2].
  apply bool_decide_eq_false in H1, H2.
  split; by apply eq_None_not_Some.
Qed.

Lemma scan_tree_spec gh sha mods existing items sf st :
  loop_spec no_test existing sf (scan_tree gh sha mods existing items sf st) st.
Proof.
  revert sf st. induction items as [|fp items IH]; intros sf st; simpl.
  - exists sf, []. rewrite app_nil_r. do 3 (split; [done|]). apply grows_refl.
  - destruct (_ || bool_decide _) eqn:Hskip; [apply IH|].
    apply skip_cond_false in Hskip as [He Hn].
    destruct (is_test_path_tree fp) eqn:Ht; [apply IH|].
    destruct (negb _); [apply IH|].
    apply loop_spec_bind with fp; try done.
    + unfold is_test_path_tree in Ht. apply orb_false_iff in Ht as [Ht _].
      by apply orb_false_iff in Ht as [Ht _].
    + apply scan_modules_tree_spec.
Qed.

Lemma scan_changed_spec gh sha mods existing pr_files sf st :
  loop_spec no_test existing sf (scan_changed gh sha mods existing pr_files sf st) st.
Proof.
  revert sf st. induction pr_files as [|fi pr_files IH]; intros sf st; simpl.
  - exists sf, []. rewrite app_nil_r. do 3 (split; [done|]). apply grows_refl.
  - destruct (_ || bool_decide _) eqn:Hskip; [apply IH|].
    apply skip_cond_false in Hskip as [He Hn].
    destruct (py_in _ _) eqn:Ht; [apply IH|].
    destruct (negb _); [apply IH|].
    apply loop_spec_bind with (fi_filename fi); try done.
    apply scan_modules_fallback_spec.
Qed.

Lemma grows_from_empty good existing sf' tr p :
  grows good existing ∅ sf' tr → is_Some (sf' !! p) → good p ∧ existing !! p = None.
Proof.
  intros (_ & _ & _ & K) Hp. destruct (K p Hp) as [[? H]|H]; [|done].
  by rewrite lookup_empty in H.
Qed.

Lemma fetch_source_files_spec gh pr_number imported existing st :
  let res := fetch_source_files_from_imports gh pr_number imported existing st in
  ∃ tr, st_trace res.2 = (st_trace st ++ tr)%list ∧ NoDup (ok_fetches tr) ∧
    ∀ sf, res.1 = Ok sf → ∀ p, is_Some (sf !! p) → no_test p ∧ existing !! p = None.
Proof.
  assert (Hnil : ∃ tr, st_trace st = (st_trace st ++ tr)%list ∧ NoDup (ok_fetches tr)).
  { exists []. rewrite app_nil_r. split; [done|constructor]. }
  assert (Hloop : ∀ (res : exc FileSet * St) st0, st_trace st0 = st_trace st →
      loop_spec no_test existing ∅ res st0 →
      ∃ tr, st_trace res.2 = (st_trace st ++ tr)%list ∧ NoDup (ok_fetches tr) ∧
        ∀ sf, res.1 = Ok sf → ∀ p, is_Some (sf !! p) → no_test p ∧ existing !! p = None).
  { intros res st0 H0 (sf' & tr & Hr & Htr & _ & G). exists tr.
    rewrite Htr, H0. split; [done|]. split; [apply G|].
    intros sf Hsf p Hp. rewrite Hr in Hsf. injection Hsf as <-.
    by eapply grows_from_empty. }
  unfold fetch_source_files_from_imports. simpl.
  destruct (bool_decide (imported = ∅)).
  { destruct Hnil as (tr & H1 & H2). exists tr. simpl. split; [done|]. split; [done|].
    intros sf [= <-] p Hp. by rewrite lookup_empty in Hp; destruct Hp. }
  unfold_M. destruct (gh_get_pr_info gh pr_number) as [pr_info|e]; simpl.
  2: { destruct Hnil as (tr & H1 & H2). exists tr. split; [done|]. split; [done|]. done. }
  destruct (bool_decide (filter_modules imported = ∅)).
  { destruct Hnil as (tr & H1 & H2). exists tr. simpl. split; [done|]. split; [done|].
    intros sf [= <-] p Hp. by rewrite lookup_empty in Hp; destruct Hp. }
  destruct (gh_tree gh (pr_head_sha pr_info)) as [items|e].
  - pose proof (scan_tree_spec gh (pr_head_sha pr_info)
      (elements (filter_modules imported)) existing items ∅ st) as Hs.
    destruct (scan_tree _ _ _ _ _ _ _) as [r st'] eqn:E.
    destruct Hs as (sf' & tr & Hr & Hrest). simpl in Hr. subst r.
    apply (Hloop _ st); [done|]. exists sf', tr. done.
  - destruct (gh_get_pr_files gh pr_number) as [pr_files|e'].
    + apply (Hloop _ st); [done|]. apply scan_changed_spec.
    + destruct Hnil as (tr & H1 & H2). exists tr. simpl. split; [done|]. split; [done|]. done.
Qed.

(* ------------------------------------------------------------------ *)
(** ** Command quoting *)

Lemma lex_escaped cmd :
  no_literal_special cmd = true ->
  lex_literals (InLit squote) (escape_command cmd ++ String squote EmptyString) = Ok cmd.
Proof.
  induction cmd as [|c cmd IH]; simpl; intros H; [reflexivity|].
  apply andb_prop in H as [Hc H]. specialize (IH H).
  unfold literal_special in Hc.
  destruct (Ascii.eqb c squote) eqn:Eq.
  - apply Ascii.eqb_eq in Eq as ->. simpl. rewrite IH. reflexivity.
  - simpl. rewrite Eq.
    destruct (Ascii.eqb c backslash), (Ascii.eqb c newline), (Ascii.eqb c cr), (Ascii.eqb c nul);
      try discriminate Hc. simpl. rewrite IH. reflexivity.
Qed.

(** C4 (as amended). The command string that the generated snippet hands
    to [subprocess.run] is the command given, whatever single or double
    quotes it contains, as long as it has no backslash, newline, carriage
    return or NUL character: [replace("'", "'\"'\"'")] turns each single
    quote into three adjacent Python literals that concatenate back to it. *)
Theorem command_as_run_roundtrip cmd :
  no_literal_special cmd = true -> command_as_run cmd = Ok cmd.
Proof. intros H. unfold command_as_run, command_literal. simpl. by apply lex_escaped. Qed.

Lemma command_as_run_roundtrip_witness :
  no_literal_special cmd_with_quotes = true ∧ command_as_run cmd_with_quotes = Ok cmd_with_quotes.
Proof. split; [reflexivity|]. apply command_as_run_roundtrip. reflexivity. Defined.

(** C4, as written, fails: a backslash in the command starts a Python
    escape sequence, so [printf a\nb] runs as [printf a], newline, [b]. *)
Lemma command_as_run_backslash :
  command_as_run cmd_with_backslash = Ok ("printf a" ++ String newline "b") ∧
  command_as_run cmd_with_backslash ≠ Ok cmd_with_backslash.
Proof. split; vm_compute; [reflexivity|discriminate]. Qed.



(* ------------------------------------------------------------------ *)
(** ** Comment classification *)

Lemma substring0_length n s :
  (n <= String.length s)%nat -> String.length (substring 0 n s) = n.
Proof.
  revert s. induction n as [|n IH]; intros [|c s] H; simpl in *; try lia.
  f_equal. apply IH. lia.
Qed.

Lemma substring0_prefix n s : String.prefix (substring 0 n s) s = true.
Proof.
  revert s. induction n as [|n IH]; intros [|c s]; simpl; try reflexivity.
  destruct (ascii_dec c c); [apply IH|congruence].
Qed.

Lemma classify_first_match body : classify body = first_match severity_rules (py_lower body).
Proof. reflexivity. Qed.

(** C6. For a comment of the bot, the finding's type is the outcome of the
    first rule (danger, warning, success, in this order; info otherwise)
    with a keyword in the lower-cased body; so any body containing
    "error", "bug", "security" or "vulnerability" gives danger, whatever
    other keywords it has. The description is the body itself up to 200
    characters, and otherwise its first 200 characters followed by "...". *)
Theorem extract_review_info_classification c r :
  extract_review_info c = Some r ->
  let body := c_body c in
  dict_get r "type" = Some (JStr (first_match severity_rules (py_lower body))) ∧
  (∀ k, k ∈ ["error"; "bug"; "security"; "vulnerability"] -> py_in k (py_lower body) = true ->
        dict_get r "type" = Some (JStr "danger")) ∧
  ((String.length body <= 200)%nat -> dict_get r "description" = Some (JStr body)) ∧
  ((200 < String.length body)%nat -> ∃ pre, dict_get r "description" = Some (JStr (pre ++ "...")) ∧
        String.length pre = 200%nat ∧ String.prefix pre body = true).
Proof.
  unfold extract_review_info. destruct (negb _); [discriminate|].
  intros [= <-]. cbn zeta. simpl dict_set. simpl dict_get.
  split; [|split; [|split]].
  - reflexivity.
  - intros k Hk Hin. unfold classify.
    replace (any_in danger_keywords (py_lower (c_body c))) with true; [reflexivity|].
    symmetry. apply existsb_exists. exists k. split; [|done]. by apply list_elem_of_In.
  - intros Hle. unfold review_description.
    destruct (Nat.ltb_spec 200 (String.length (c_body c))); [lia|reflexivity].
  - intros Hlt. unfold review_description.
    destruct (Nat.ltb_spec 200 (String.length (c_body c))); [|lia].
    eexists. split; [reflexivity|]. split.
    + apply substring0_length. lia.
    + apply substring0_prefix.
Qed.

Lemma extract_review_info_classification_witness :
  extract_review_info ex_comment = Some ex_review ∧
  dict_get ex_review "type" = Some (JStr "danger").
Proof.
  split; [reflexivity|].
  apply (proj1 (proj2 (extract_review_info_classification ex_comment ex_review
                         ltac:(reflexivity))) "security").
  - apply list_elem_of_In. simpl. tauto.
  - reflexivity.
Defined.


(* ------------------------------------------------------------------ *)
(** ** Merging the file sets *)

Lemma foldl_insert_lookup (l : list (string * string)) (a : FileSet) p :
  NoDup l.*1 ->
  foldl (fun acc kv => <[kv.1 := kv.2]> acc) a l !! p =
    match (list_to_map l : FileSet) !! p with Some v => Some v | None => a !! p end.
Proof.
  revert a. induction l as [|[k v] l IH]; intros a Hnd; simpl; [by rewrite lookup_empty|].
  apply NoDup_cons in Hnd as [Hk Hnd]. rewrite IH by done.
  destruct (decide (p = k)) as [->|Hne].
  - rewrite (not_elem_of_list_to_map_1 l k) by done. by rewrite !lookup_insert_eq.
  - by rewrite !lookup_insert_ne by done.
Qed.

(** C9. In the files written to the sandbox, [{**code_files, **test_files}],
    a path of the test files has its test content (also when the code files
    have it), and a path only in the code files keeps its code content. *)
Theorem setup_environment_files_lookup (code_files test_files : FileSet) p :
  setup_environment_files code_files test_files !! p =
    match test_files !! p with Some v => Some v | None => code_files !! p end.
Proof.
  unfold setup_environment_files, dict_merge.
  rewrite foldl_insert_lookup by apply NoDup_fst_map_to_list.
  by rewrite list_to_map_to_list.
Qed.

(* ------------------------------------------------------------------ *)
(** ** Review updates *)

Lemma extract_review_info_name c r :
  extract_review_info c = Some r -> dict_get r "name" = Some (JStr review_name).
Proof. unfold extract_review_info. destruct (negb _); [discriminate|]. by intros [= <-]. Qed.

Lemma apply_updates_loop_named u (reviews : list pydict) :
  (∀ r, r ∈ reviews -> dict_get r "name" = Some (JStr review_name)) ->
  (∀ kv, dict_get u review_name = Some (JObj kv) ->
     apply_updates_loop (JObj u) reviews = (map (fun r => dict_update r kv) reviews, None)) ∧
  (dict_get u review_name = None -> apply_updates_loop (JObj u) reviews = (reviews, None)).
Proof.
  intros Hn. split.
  - intros kv Hkv. induction reviews as [|r rs IH]; [done|]. simpl.
    rewrite (Hn r) by set_solver. simpl. rewrite Hkv. simpl.
    rewrite IH by (intros r' Hr'; apply Hn; set_solver). done.
  - intros Hnone. induction reviews as [|r rs IH]; [done|]. simpl.
    rewrite (Hn r) by set_solver. simpl. rewrite Hnone. simpl.
    rewrite IH by (intros r' Hr'; apply Hn; set_solver). done.
Qed.

(** C10. Every finding built from the bot's comments is named
    "Coderabbit Review". Hence an entry of [reviewUpdates] under that name
    updates every finding of the PR with the same fields, and when no entry
    has that name no finding changes. *)
Theorem review_updates_by_constant_name comments o u :
  dict_get o "reviewUpdates" = Some (JObj u) ->
  let reviews := omap extract_review_info comments in
  (∀ r, r ∈ reviews -> dict_get r "name" = Some (JStr "Coderabbit Review")) ∧
  (∀ kv, dict_get u "Coderabbit Review" = Some (JObj kv) ->
     apply_review_updates reviews (JObj o) = (map (fun r => dict_update r kv) reviews, None)) ∧
  (dict_get u "Coderabbit Review" = None ->
     apply_review_updates reviews (JObj o) = (reviews, None)).
Proof.
  intros Ho reviews.
  assert (Hn : ∀ r, r ∈ reviews -> dict_get r "name" = Some (JStr review_name)).
  { intros r Hr. apply list_elem_of_omap in Hr as (c & _ & Hc).
    by eapply extract_review_info_name. }
  destruct (apply_updates_loop_named u reviews Hn) as [H1 H2].
  unfold apply_review_updates, json_get. rewrite Ho. simpl.
  split; [exact Hn|]. split; [exact H1|exact H2].
Qed.

Lemma review_updates_by_constant_name_witness :
  dict_get ex_analysis "reviewUpdates"
    = Some (JObj [("Coderabbit Review", JObj [("type", JStr "warning")])]) ∧
  apply_review_updates (omap extract_review_info ex_comments) (JObj ex_analysis)
    = (map (fun r => dict_update r [("type", JStr "warning")])
           (omap extract_review_info ex_comments), None).
Proof.
  split; [reflexivity|].
  apply (proj1 (proj2 (review_updates_by_constant_name ex_comments ex_analysis
                         [("Coderabbit Review", JObj [("type", JStr "warning")])]
                         ltac:(reflexivity)))).
  reflexivity.
Defined.


(* ------------------------------------------------------------------ *)
(** ** Sandbox disposal *)

Lemma no_create_ret {A} (a : A) : no_create (mret a).
Proof. intros st. exists []. rewrite app_nil_r. split; [done|set_solver]. Qed.

Lemma no_create_call {A} (r : exc A) : no_create (call r).
Proof. intros st. exists []. rewrite app_nil_r. split; [done|set_solver]. Qed.

Lemma no_create_bind {A B} (m : M A) (k : A -> M B) :
  no_create m -> (∀ a, no_create (k a)) -> no_create (m ≫= k).
Proof.
  intros Hm Hk st. destruct (Hm st) as (tr1 & H1 & N1).
  unfold_M. destruct (m st) as [[a|e] st1]; simpl in *.
  - destruct (Hk a st1) as (tr2 & H2 & N2). exists (tr1 ++ tr2)%list.
    rewrite H2, H1, app_assoc. split; [done|]. rewrite elem_of_app. tauto.
  - by exists tr1.
Qed.

Lemma no_create_try_except {A} (m : M A) (h : string -> M A) :
  no_create m -> (∀ e, no_create (h e)) -> no_create (try_except m h).
Proof.
  intros Hm Hk st. destruct (Hm st) as (tr1 & H1 & N1).
  unfold try_except. destruct (m st) as [[a|e] st1]; simpl in *.
  - by exists tr1.
  - destruct (Hk e st1) as (tr2 & H2 & N2). exists (tr1 ++ tr2)%list.
    rewrite H2, H1, app_assoc. split; [done|]. rewrite elem_of_app. tauto.
Qed.

Lemma no_create_try_fetch gh p ref : no_create (try_fetch gh p ref).
Proof.
  intros st. rewrite try_fetch_eq.
  destruct (gh_get_file_content gh p ref); eexists; (split; [reflexivity|set_solver]).
Qed.

Lemma no_create_scan_modules_tree gh sha fp mods sf :
  no_create (scan_modules_tree gh sha fp mods sf).
Proof.
  revert sf. induction mods as [|m mods IH]; intros sf; simpl; [apply no_create_ret|].
  destruct (_ || _); [|destruct (in_list _ _); [|apply IH]];
    (apply no_create_bind; [apply no_create_try_fetch|]);
    intros [c|]; [apply no_create_ret|apply IH|apply no_create_ret|apply IH].
Qed.

Lemma no_create_scan_modules_fallback gh sha fp mods sf :
  no_create (scan_modules_fallback gh sha fp mods sf).
Proof.
  revert sf. induction mods as [|m mods IH]; intros sf; simpl; [apply no_create_ret|].
  destruct (_ || _); [|apply IH].
  apply no_create_bind; [apply no_create_try_fetch|].
  intros [c|]; [apply no_create_ret|apply IH].
Qed.

Lemma no_create_scan_tree gh sha mods existing items sf :
  no_create (scan_tree gh sha mods existing items sf).
Proof.
  revert sf. induction items as [|fp items IH]; intros sf; simpl; [apply no_create_ret|].
  destruct (_ || bool_decide _); [apply IH|].
  destruct (is_test_path_tree fp); [apply IH|]. destruct (negb _); [apply IH|].
  apply no_create_bind; [apply no_create_scan_modules_tree|intros; apply IH].
Qed.

Lemma no_create_scan_changed gh sha mods existing pr_files sf :
  no_create (scan_changed gh sha mods existing pr_files sf).
Proof.
  revert sf. induction pr_files as [|fi pr_files IH]; intros sf; simpl; [apply no_create_ret|].
  destruct (_ || bool_decide _); [apply IH|].
  destruct (py_in _ _); [apply IH|]. destruct (negb _); [apply IH|].
  apply no_create_bind; [apply no_create_scan_modules_fallback|intros; apply IH].
Qed.

Lemma no_create_fetch_source_files gh pr_number imported existing :
  no_create (fetch_source_files_from_imports gh pr_number imported existing).
Proof.
  unfold fetch_source_files_from_imports.
  destruct (bool_decide _); [apply no_create_ret|].
  apply no_create_bind; [apply no_create_call|intros pr_info].
  destruct (bool_decide _); [apply no_create_ret|].
  apply no_create_try_except.
  - apply no_create_bind; [apply no_create_call|intros; apply no_create_scan_tree].
  - intros e. apply no_create_bind; [apply no_create_call|intros; apply no_create_scan_changed].
Qed.

Lemma no_create_fetch_tree_files gh sha items files :
  no_create (fetch_tree_files gh sha items files).
Proof.
  revert files. induction items as [|fp items IH]; intros files; simpl; [apply no_create_ret|].
  destruct (_ && _); [|apply IH].
  apply no_create_bind; [apply no_create_try_fetch|intros; apply IH].
Qed.

Lemma no_create_fetch_changed_files gh sha pr_files files :
  no_create (fetch_changed_files gh sha pr_files files).
Proof.
  revert files. induction pr_files as [|fi pr_files IH]; intros files;
    cbn [fetch_changed_files]; [apply no_create_ret|].
  destruct (in_list _ _); [|apply IH].
  apply no_create_bind; [apply no_create_try_fetch|intros; apply IH].
Qed.

Lemma no_create_prepare_files gh pr_number fetch_all :
  no_create (prepare_files_from_pr gh pr_number fetch_all).
Proof.
  unfold prepare_files_from_pr.
  apply no_create_bind; [apply no_create_call|intros pr_info].
  apply no_create_bind.
  - destruct fetch_all; [|apply no_create_ret].
    apply no_create_try_except; [|intros; apply no_create_ret].
    apply no_create_bind; [apply no_create_call|intros items].
    apply no_create_bind; [apply no_create_fetch_tree_files|intros; apply no_create_ret].
  - intros [files []]; [apply no_create_ret|].
    apply no_create_bind; [apply no_create_call|intros; apply no_create_fetch_changed_files].
Qed.

Lemma keeps_sandbox_ret {A} (a : A) : keeps_sandbox (mret a).
Proof. intros st. split; [done|]. exists []. by rewrite app_nil_r. Qed.

Lemma keeps_sandbox_bind {A B} (m : M A) (k : A -> M B) :
  keeps_sandbox m -> (∀ a, keeps_sandbox (k a)) -> keeps_sandbox (m ≫= k).
Proof.
  intros Hm Hk st. destruct (Hm st) as [Hs1 [tr1 Ht1]]. unfold_M.
  destruct (m st) as [[a|e] st1]; simpl in *; [|split; [done|by exists tr1]].
  destruct (Hk a st1) as [Hs2 [tr2 Ht2]]. split; [congruence|].
  exists (tr1 ++ tr2)%list. by rewrite Ht2, Ht1, app_assoc.
Qed.

Lemma keeps_sandbox_code_run dt code : keeps_sandbox (code_run dt code).
Proof.
  intros st. unfold code_run. destruct (st_sandbox st) eqn:E; simpl.
  - split; [congruence|]. by eexists.
  - split; [done|]. exists []. by rewrite app_nil_r.
Qed.

Lemma keeps_sandbox_body dt code_files test_files :
  keeps_sandbox (sandbox_body dt code_files test_files).
Proof.
  unfold sandbox_body, setup_environment, install_dependencies, run_tests.
  repeat first
    [ apply keeps_sandbox_code_run | apply keeps_sandbox_ret | apply keeps_sandbox_bind
    | intros [] | intros ? ].
Qed.

Lemma disposes_of_no_create {A} h (m : M A) : no_create m -> disposes h m.
Proof. intros Hm st. destruct (Hm st) as (tr & Ht & Hn). exists tr. split; [done|]. done. Qed.

Lemma disposes_bind {A B} h (m : M A) (k : A -> M B) :
  no_create m -> (∀ a, disposes h (k a)) -> disposes h (m ≫= k).
Proof.
  intros Hm Hk st. destruct (Hm st) as (tr1 & H1 & N1).
  unfold_M. destruct (m st) as [[a|e] st1]; simpl in *.
  - destruct (Hk a st1) as (tr2 & H2 & D2). exists (tr1 ++ tr2)%list.
    rewrite H2, H1, app_assoc. split; [done|].
    intros [Hc|Hc]%elem_of_app; [done|].
    destruct (D2 Hc) as (tr0 & ->). exists (tr1 ++ tr0)%list. by rewrite app_assoc.
  - exists tr1. split; [done|]. done.
Qed.

Lemma disposes_try_except {A} h (m : M A) (hd : string -> M A) :
  disposes h m -> (∀ e st, (hd e st).2 = st) -> disposes h (try_except m hd).
Proof.
  intros Hm Hh st. destruct (Hm st) as (tr & Ht & D).
  unfold try_except. destruct (m st) as [[a|e] st1]; simpl in *.
  - by exists tr.
  - exists tr. by rewrite Hh.
Qed.

Lemma disposes_create_then {A} dt h (body : M A) :
  dt_create dt = Ok h -> keeps_sandbox body ->
  disposes h (_ ← create_sandbox dt; try_finally body (cleanup dt)).
Proof.
  intros Hc Hb st. unfold_M. unfold create_sandbox. rewrite Hc. simpl.
  unfold try_finally.
  destruct (Hb {| st_sandbox := Some h; st_trace := (st_trace st ++ [ECreateSandbox])%list |})
    as [Hs [trb Ht]].
  destruct (body _) as [r st2]. simpl in Hs, Ht.
  unfold cleanup. rewrite Hs. unfold try_except.
  exists ([ECreateSandbox] ++ trb ++ [EDeleteSandbox h])%list.
  destruct (dt_delete dt h); simpl; rewrite Ht, <- !app_assoc;
    (split; [done|]); intros _; exists ([ECreateSandbox] ++ trb)%list; by rewrite <- app_assoc.
Qed.

Lemma cleanup_ok dt st : (cleanup dt st).1 = Ok tt.
Proof.
  unfold cleanup. destruct (st_sandbox st) as [h|]; [|done].
  unfold try_except. by destruct (dt_delete dt h).
Qed.

Lemma try_except_total {A} (m : M A) (hd : string -> M A) st :
  (∀ e st', is_ok (hd e st').1 = true) -> is_ok (try_except m hd st).1 = true.
Proof. intros Hh. unfold try_except. destruct (m st) as [[a|e] st']; [done|apply Hh]. Qed.

Lemma run_tests_in_daytona_disposes gh dt ast_parse pr_number test_pr_number h :
  dt_create dt = Ok h ->
  disposes h (run_tests_in_daytona gh dt ast_parse pr_number test_pr_number).
Proof.
  intros Hc. unfold run_tests_in_daytona.
  apply disposes_try_except; [|done].
  apply disposes_bind; [apply no_create_prepare_files|intros code_files].
  apply disposes_bind; [apply no_create_prepare_files|intros test_files].
  destruct (bool_decide _); [apply disposes_of_no_create, no_create_ret|].
  apply disposes_bind.
  - destruct (bool_decide _); [apply no_create_ret|].
    apply no_create_bind; [apply no_create_fetch_source_files|intros; apply no_create_ret].
  - intros code_files'. apply disposes_create_then; [done|apply keeps_sandbox_body].
Qed.

(** C8. [TestRunner.cleanup] never raises. When the sandbox is created,
    [_run_tests_in_daytona] deletes it as its last call to the services,
    whatever the file setup, the installation or the test run raise, and
    the method itself returns normally. *)
Theorem sandbox_always_disposed gh dt ast_parse pr_number test_pr_number st h :
  dt_create dt = Ok h ->
  (∀ st', (cleanup dt st').1 = Ok tt) ∧
  let res := run_tests_in_daytona gh dt ast_parse pr_number test_pr_number st in
  is_ok res.1 = true ∧
  ∃ tr, st_trace res.2 = (st_trace st ++ tr)%list ∧
    (ECreateSandbox ∈ tr -> ∃ tr0, tr = (tr0 ++ [EDeleteSandbox h])%list).
Proof.
  intros Hc. split; [apply cleanup_ok|]. split.
  - unfold run_tests_in_daytona. by apply try_except_total.
  - by apply run_tests_in_daytona_disposes.
Qed.

Lemma sandbox_always_disposed_witness :
  dt_create ex_daytona = Ok 7%Z ∧
  is_ok (run_tests_in_daytona ex_github ex_daytona ex_ast_parse 3 4 st0).1 = true ∧
  List.last (st_trace (run_tests_in_daytona ex_github ex_daytona ex_ast_parse 3 4 st0).2)
    ECreateSandbox = EDeleteSandbox 7.
Proof.
  destruct (sandbox_always_disposed ex_github ex_daytona ex_ast_parse 3 4 st0 7
              ltac:(reflexivity)) as (_ & Hok & tr & Htr & Hd).
  split; [reflexivity|]. split; [exact Hok|].
  simpl in Htr. destruct Hd as [tr0 Htr0].
  { rewrite <- Htr. vm_compute. apply list_elem_of_In. simpl. tauto. }
  rewrite Htr, Htr0. apply List.last_last.
Defined.


(* ------------------------------------------------------------------ *)
(** ** The orchestrator and the batch driver *)

Lemma post_ret {A} (a : A) (Q : A -> Prop) : Q a -> post (mret a) Q.
Proof. intros H st a' st' [= <- _]. done. Qed.

Lemma post_call {A} (r : exc A) (Q : A -> Prop) : (∀ a, r = Ok a -> Q a) -> post (call r) Q.
Proof. intros H st a st'. unfold call. destruct r; [intros [= <- _]; auto|discriminate]. Qed.

Lemma post_true {A} (m : M A) : post m (fun _ => True).
Proof. done. Qed.

Lemma post_weaken {A} (m : M A) (Q R : A -> Prop) :
  post m Q -> (∀ a, Q a -> R a) -> post m R.
Proof. intros Hm H st a st' E. eauto. Qed.

Lemma post_bind {A B} (m : M A) (k : A -> M B) (Q : A -> Prop) (R : B -> Prop) :
  post m Q -> (∀ a, Q a -> post (k a) R) -> post (m ≫= k) R.
Proof.
  intros Hm Hk st b st'. unfold_M. destruct (m st) as [[a|e] st1] eqn:E; [|discriminate].
  apply (Hk a (Hm st a st1 E)).
Qed.

Lemma post_try_except {A} (m : M A) (h : string -> M A) (Q : A -> Prop) :
  post m Q -> (∀ e, post (h e) Q) -> post (try_except m h) Q.
Proof.
  intros Hm Hh st a st'. unfold try_except. destruct (m st) as [[a'|e] st1] eqn:E.
  - intros [= <- _]. by apply (Hm st a' st1).
  - apply Hh.
Qed.

Lemma test_stage_post p dt pr_number result :
  post (test_stage p dt pr_number result)
    (fun r => res_id r = res_id result ∧ res_risk r = res_risk result).
Proof.
  unfold test_stage. apply post_try_except; [|intros e; by apply post_ret].
  apply post_bind with (fun _ => True); [apply post_true|intros _ _].
  apply post_bind with (fun _ => True); [apply post_true|intros [k|] _]; [|by apply post_ret].
  apply post_bind with (fun _ => True); [apply post_true|intros tr _]. by apply post_ret.
Qed.

Lemma gpt_stage_post p an pr_number pr_info result :
  post (gpt_stage p an pr_number pr_info result)
    (fun r => res_id r = res_id result ∧
       (res_risk r = res_risk result ∨
        ∃ code_files analysis,
          an pr_info (res_reviews result) (res_test_results result) code_files = Ok analysis ∧
          json_get analysis "risk" (JNum 0) = Ok (res_risk r))).
Proof.
  unfold gpt_stage.
  apply post_bind with (fun o => match o with
    | inl (analysis, risk) => ∃ code_files,
        an pr_info (res_reviews result) (res_test_results result) code_files = Ok analysis ∧
        json_get analysis "risk" (JNum 0) = Ok risk
    | inr _ => True end).
  - apply post_try_except; [|intros e; by apply post_ret].
    apply post_bind with (fun _ => True); [apply post_true|intros cf _].
    apply post_bind with (fun a => an pr_info (res_reviews result) (res_test_results result) cf = Ok a);
      [by apply post_call|intros a Ha].
    apply post_bind with (fun risk => json_get a "risk" (JNum 0) = Ok risk);
      [by apply post_call|intros risk Hr].
    apply post_ret. eauto.
  - intros [[a risk]|e] H; [|apply post_ret; auto].
    destruct H as (cf & Ha & Hr).
    destruct (apply_review_updates _ a) as [reviews err]. apply post_ret.
    split; [done|]. right. eauto.
Qed.

Lemma process_pr_post p pr_number skip_tests skip_gpt :
  post (process_pr p pr_number skip_tests skip_gpt)
    (fun r => res_id r = pr_number ∧
       (res_risk r = JNum 0 ∨ risk_from_scorer p skip_gpt (res_risk r))).
Proof.
  unfold process_pr.
  apply post_bind with (fun _ => True); [apply post_true|intros pr_info _].
  apply post_bind with (fun _ => True); [apply post_true|intros has_review _].
  apply post_bind with (fun _ => True); [apply post_true|intros reviews _].
  apply post_bind with (fun r => res_id r = pr_number ∧ res_risk r = JNum 0).
  - destruct (p_test_runner p) as [dt|]; [destruct skip_tests|]; simpl;
      try (apply post_ret; done).
    eapply post_weaken; [apply test_stage_post|]. done.
  - intros r [Hid Hrisk].
    destruct (p_gpt_analyzer p) as [an|] eqn:Ean; [destruct skip_gpt eqn:Esk|]; simpl;
      try (apply post_ret; auto).
    eapply post_weaken; [apply gpt_stage_post|].
    intros r' (Hid' & [Hr'|(cf & a & Ha & Hj)]); (split; [congruence|]).
    + left. congruence.
    + right. exists an. split; [done|]. split; [done|]. eauto 10.
Qed.

Lemma batch_loop_spec p skip_tests skip_gpt save i prs results st :
  (∀ e, e ∈ results -> risk_ok p skip_gpt e) ->
  ∃ blocks,
    (batch_loop p skip_tests skip_gpt save i prs results st).1 = Ok (results ++ concat blocks)%list ∧
    Forall2 block_ok prs blocks ∧
    ∀ e, e ∈ (results ++ concat blocks)%list -> risk_ok p skip_gpt e.
Proof.
  revert i results st. induction prs as [|pr prs IH]; intros i results st Hres.
  { exists []. simpl. rewrite app_nil_r. split; [done|]. split; [constructor|done]. }
  assert (Hstep : ∀ blk st', block_ok pr blk -> (∀ e, e ∈ blk -> risk_ok p skip_gpt e) ->
    ∃ blocks,
      (batch_loop p skip_tests skip_gpt save (S i) prs (results ++ blk) st').1
        = Ok (results ++ concat blocks)%list ∧
      Forall2 block_ok (pr :: prs) blocks ∧
      ∀ e, e ∈ (results ++ concat blocks)%list -> risk_ok p skip_gpt e).
  { intros blk st' Hb Hblk.
    destruct (IH (S i) (results ++ blk)%list st') as (bs & H1 & H2 & H3).
    { intros e [He|He]%elem_of_app; auto. }
    exists (blk :: bs). simpl. rewrite app_assoc. split; [done|]. split; [by constructor|done]. }
  assert (Herr : ∀ e, risk_ok p skip_gpt (ErrorEntry (pl_number pr) (pl_title pr) (pl_html_url pr) e)).
  { intros e Hne. by contradiction Hne. }
  pose proof (process_pr_post p (pl_number pr) skip_tests skip_gpt st) as Hpp.
  simpl. unfold_M.
  destruct (process_pr p (pl_number pr) skip_tests skip_gpt st) as [[r|e] st1]; simpl.
  - specialize (Hpp r st1 eq_refl) as [Hid Hrisk].
    assert (Hr : risk_ok p skip_gpt (Processed r)).
    { intros Hne. exists r. split; [done|]. destruct Hrisk; [contradiction|done]. }
    destruct (Nat.eqb _ 0); [destruct (save _) as [[]|e]|]; simpl.
    + apply Hstep; [right; eauto|set_solver].
    + rewrite <- app_assoc. apply Hstep; [right; eauto 6|set_solver].
    + apply Hstep; [right; eauto|set_solver].
  - apply Hstep; [left; eauto|set_solver].
Qed.

(** C1. The batch driver always returns, with, for each listed PR in turn,
    an error entry, or its result (followed by an error entry if the
    checkpoint save raised). An entry whose risk is not 0 is a PR result
    whose risk was read from an analysis the enabled risk scorer returned;
    every result starts with risk 0, and error entries carry risk 0. *)
Theorem batch_risk_only_from_scorer p skip_tests skip_gpt save prs st :
  ∃ entries, (batch p skip_tests skip_gpt save prs st).1 = Ok entries ∧
    (∃ blocks, entries = concat blocks ∧ Forall2 block_ok prs blocks) ∧
    ∀ e, e ∈ entries -> entry_risk e ≠ JNum 0 ->
      ∃ r, e = Processed r ∧ risk_from_scorer p skip_gpt (res_risk r).
Proof.
  destruct (batch_loop_spec p skip_tests skip_gpt save 1 prs [] st) as (bs & H1 & H2 & H3);
    [set_solver|].
  exists (concat bs). unfold batch. rewrite H1. split; [done|]. split; [eauto|].
  intros e He. apply H3. done.
Qed.

(* ------------------------------------------------------------------ *)
(** ** The risk scorer on failures *)

(** With a prompt built, any failure of the request or of the parsing
    gives the default analysis, carrying the error text. *)
Lemma analyze_pr_call_failure oa pr_info reviews test_results code_files prompt e :
  build_analysis_prompt (oa_json_dumps oa) pr_info reviews test_results code_files = Ok prompt ->
  oa_complete oa prompt = Exc e ->
  analyze_pr oa pr_info reviews test_results code_files = Ok (default_analysis e).
Proof. intros Hb Hc. unfold analyze_pr. by rewrite Hb, Hc. Qed.

(** C2. [GPTAnalyzer.analyze_pr] raises for a PR whose body is [null]:
    the prompt, built before the [try], slices
    [pr_info.get('body', 'N/A')], which is [None]. *)
Theorem analyze_pr_null_body_raises oa pr_info reviews test_results code_files :
  pr_body pr_info = None ->
  analyze_pr oa pr_info reviews test_results code_files = Exc none_subscript_msg.
Proof.
  intros H. unfold analyze_pr, build_analysis_prompt.
  destruct (test_counts test_results) as [[? ?] ?]. by rewrite H.
Qed.

Lemma analyze_pr_null_body_raises_witness :
  pr_body (ex_pr_info None) = None ∧
  analyze_pr ex_openai_down (ex_pr_info None) [] None ∅ = Exc none_subscript_msg.
Proof. split; [reflexivity|]. apply analyze_pr_null_body_raises. reflexivity. Defined.

(* ------------------------------------------------------------------ *)
(** ** Source resolution *)

(** C3 (as amended). No branch file is fetched twice by
    [fetch_source_files_from_imports]: once a file has been fetched for one
    module, the module loop for that file stops, and a file already fetched
    is skipped. *)
Theorem fetch_source_files_fetch_once gh pr_number imported existing st :
  ∃ tr, st_trace (fetch_source_files_from_imports gh pr_number imported existing st).2
          = (st_trace st ++ tr)%list ∧
        NoDup (ok_fetches tr).
Proof.
  destruct (fetch_source_files_spec gh pr_number imported existing st) as (tr & H1 & H2 & _).
  eauto.
Qed.

(** C3, as written, fails: the single module [app] makes the resolver
    fetch both files of the package directory [app]. *)
Lemma fetch_source_files_one_module_two_files :
  elements (filter_modules {["app"]}) = ["app"] ∧
  ok_fetches (st_trace (fetch_source_files_from_imports ex_github 3 {["app"]} ∅ st0).2)
    = ["app/a.py"; "app/b.py"].
Proof. split; vm_compute; reflexivity. Qed.

(** C7. Every path in the dict returned by [fetch_source_files_from_imports]
    has no "test" in its lower-cased form and is not among the files
    already fetched, both when the branch tree is listed and in the
    fallback to the changed files. *)
Theorem fetch_source_files_no_test_no_existing gh pr_number imported existing st
    (sf : FileSet) p :
  (fetch_source_files_from_imports gh pr_number imported existing st).1 = Ok sf ->
  is_Some (sf !! p) ->
  py_in "test" (py_lower p) = false ∧ existing !! p = None.
Proof.
  intros Hsf Hp.
  destruct (fetch_source_files_spec gh pr_number imported existing st) as (_ & _ & _ & H).
  exact (H sf Hsf p Hp).
Qed.

Lemma fetch_source_files_no_test_no_existing_witness :
  (fetch_source_files_from_imports ex_github 3 {["app"]} {["app/b.py" := "old"]} st0).1
    = Ok {["app/a.py" := "# app/a.py"]} ∧
  py_in "test" (py_lower "app/a.py") = false ∧ ({["app/b.py" := "old"]} : FileSet) !! "app/a.py" = None.
Proof.
  split; [vm_compute; reflexivity|].
  apply (fetch_source_files_no_test_no_existing ex_github 3 {["app"]} {["app/b.py" := "old"]}
           st0 {["app/a.py" := "# app/a.py"]} "app/a.py").
  - vm_compute. reflexivity.
  - exists "# app/a.py". reflexivity.
Defined.

(* ------------------------------------------------------------------ *)
(** ** Import extraction *)

Example parse_imports_from_syntax_tree :
  parse_imports_from_test_files (fun _ => Some [ImportFromNode (Some "app.auth")])
    {["tests/test_auth.py" := "from app.auth import login"]} = {["app.auth"; "app"]}.
Proof. vm_compute. reflexivity. Qed.

Example parse_imports_fallback_from_line :
  parse_imports_from_test_files (fun _ => None)
    {["tests/test_auth.py" := "  from app.auth import login"]} = {["app.auth"; "app"]}.
Proof. vm_compute. reflexivity. Qed.

(** C5. On a file [ast.parse] rejects, the fallback pattern, whose
    optional group is [from] only, captures the first word of every line:
    [import app.auth] gives "import" (and not "app.auth" or "app"), and the
    line [x = (], no import, gives "x". *)
Theorem parse_imports_fallback_first_words ast_parse :
  ast_parse ex_broken_test = None ->
  parse_imports_from_test_files ast_parse {["tests/test_auth.py" := ex_broken_test]}
    = {["import"; "x"]}.
Proof.
  intros H. unfold parse_imports_from_test_files.
  rewrite map_to_list_singleton. simpl. rewrite H. vm_compute. reflexivity.
Qed.

Lemma parse_imports_fallback_first_words_witness :
  (fun _ : string => @None (list import_node)) ex_broken_test = None ∧
  parse_imports_from_test_files (fun _ => None) {["tests/test_auth.py" := ex_broken_test]}
    = {["import"; "x"]}.
Proof. split; [reflexivity|]. apply parse_imports_fallback_first_words. reflexivity. Defined.

(* ------------------------------------------------------------------ *)
(** ** The GitHub client: bot comments *)
Lemma filter_coderabbit_any cs l :
  filter_coderabbit cs = Ok l ->
  any_coderabbit cs = Ok (match l with [] => false | _ => true end).
Proof.
  revert l. induction cs as [|c cs IH]; intros l H; simpl in *.
  - by injection H as <-.
  - destruct (user_login c) as [u|e]; simpl in *; [|discriminate].
    destruct (filter_coderabbit cs) as [rest|e]; simpl in *; [|discriminate].
    injection H as <-. destruct (py_in "coderabbit" u); [done|]. by apply IH.
Qed.

Lemma any_coderabbit_false cs :
  any_coderabbit cs = Ok false -> filter_coderabbit cs = Ok [].
Proof.
  induction cs as [|c cs IH]; simpl; [done|].
  destruct (user_login c) as [u|e]; simpl; [|discriminate].
  destruct (py_in "coderabbit" u); [discriminate|].
  intros H. by rewrite IH.
Qed.

(** [check_coderabbit_review] and [get_coderabbit_comments] agree: when
    the comment list is non-empty the check returns [True], and when the
    check returns [False] the comment list is empty. *)
Theorem coderabbit_check_agrees_with_comments api pr_number :
  (∀ c cs, get_coderabbit_comments api pr_number = Ok (c :: cs) ->
           check_coderabbit_review api pr_number = Ok true) ∧
  (check_coderabbit_review api pr_number = Ok false ->
   get_coderabbit_comments api pr_number = Ok []).
Proof.
  unfold get_coderabbit_comments, check_coderabbit_review. split.
  - intros c cs.
    destruct (api_get_pr_issue_comments api pr_number) as [l|e]; simpl; [|discriminate].
    destruct (filter_coderabbit l) as [l1|e] eqn:E1; simpl; [|discriminate].
    rewrite (filter_coderabbit_any _ _ E1). destruct l1 as [|x l1]; simpl; [|done].
    destruct (api_get_pr_comments api pr_number) as [r|e]; simpl; [|discriminate].
    destruct (filter_coderabbit r) as [l2|e] eqn:E2; simpl; [|discriminate].
    rewrite (filter_coderabbit_any _ _ E2). intros [= ->]. done.
  - destruct (api_get_pr_issue_comments api pr_number) as [l|e]; simpl; [|discriminate].
    destruct (any_coderabbit l) as [[]|e] eqn:E1; simpl; try discriminate.
    rewrite (any_coderabbit_false _ E1). simpl.
    destruct (api_get_pr_comments api pr_number) as [r|e]; simpl; [|discriminate].
    destruct (any_coderabbit r) as [[]|e] eqn:E2; simpl; try discriminate.
    by rewrite (any_coderabbit_false _ E2).
Qed.

(* ------------------------------------------------------------------ *)
(** ** The GitHub client: locating the test PR *)
Lemma scan_test_prs_sound n prs pr :
  scan_test_prs n prs = Ok (Some pr) -> pr ∈ prs ∧ test_pr_qualifies n pr.
Proof.
  induction prs as [|x prs IH]; cbn [scan_test_prs]; [discriminate|].
  destruct (lower_field x "title") as [title|e] eqn:Et; cbn [exc_bind]; [|discriminate].
  destruct (lower_field x "body") as [body|e] eqn:Eb; cbn [exc_bind]; [|discriminate].
  destruct (json_get x "number" JNull) as [num|e] eqn:En; cbn [exc_bind]; [|discriminate].
  destruct (json_eqb num (JNum n)) eqn:Eq.
  { intros H. destruct (IH H). split; [by right|done]. }
  destruct (existsb (fun k => py_in k title || py_in k body) (test_pr_keywords n)) eqn:Ek.
  2:{ intros H. destruct (IH H). split; [by right|done]. }
  destruct (user_login x) as [user|e] eqn:Eu; cbn [exc_bind]; [|discriminate].
  destruct (py_in "coderabbit" user || py_in "bot" user) eqn:Ebot.
  2:{ intros H. destruct (IH H). split; [by right|done]. }
  intros [= <-]. split; [left|].
  apply existsb_exists in Ek as (k & Hk & Hk').
  split; [eauto|]. split; [|eauto].
  exists title, body. split; [done|]. split; [done|].
  exists k. split; [by apply list_elem_of_In|done].
Qed.

(** A PR returned by [find_coderabbit_test_pr] qualifies (it is not the
    original PR, a keyword is in its lower-cased title or body, its login
    contains "coderabbit" or "bot"), and it is one of the open PRs or one of
    the first ten closed PRs. *)
Theorem find_coderabbit_test_pr_sound api original_pr_number pr :
  find_coderabbit_test_pr api original_pr_number = Ok (Some pr) ->
  test_pr_qualifies original_pr_number pr ∧
  ((∃ prs, api_list_prs api "open" = Ok prs ∧ pr ∈ prs) ∨
   (∃ prs, api_list_prs api "closed" = Ok prs ∧ pr ∈ firstn 10 prs)).
Proof.
  unfold find_coderabbit_test_pr.
  destruct (api_get_pr_info api original_pr_number); simpl; [|discriminate].
  destruct (api_list_prs api "open") as [prs|e]; simpl; [|discriminate].
  destruct (scan_test_prs original_pr_number prs) as [[x|]|e] eqn:E; simpl; try discriminate.
  - intros [= <-]. destruct (scan_test_prs_sound _ _ _ E). split; [done|left; eauto].
  - destruct (api_list_prs api "closed") as [cprs|e]; simpl; [|discriminate].
    intros H. destruct (scan_test_prs_sound _ _ _ H). split; [done|right; eauto].
Qed.

(** With a null body on the first open PR. *)
(** When the first open PR has a string title and a JSON null body,
    [find_coderabbit_test_pr] raises: [pr.get('body', '')] is [None] and
    [None.lower()] fails, before the PR number is compared. *)
Theorem find_coderabbit_test_pr_null_body api original_pr_number pr prs info :
  api_get_pr_info api original_pr_number = Ok info ->
  api_list_prs api "open" = Ok (pr :: prs) ->
  (∃ t, json_get pr "title" (JStr "") = Ok (JStr t)) ->
  json_get pr "body" (JStr "") = Ok JNull ->
  find_coderabbit_test_pr api original_pr_number
    = Exc "'NoneType' object has no attribute 'lower'".
Proof.
  intros Hi Ho [t Ht] Hb. unfold find_coderabbit_test_pr.
  rewrite Hi, Ho. simpl. unfold lower_field. rewrite Ht, Hb. done.
Qed.

(* ------------------------------------------------------------------ *)
(** ** The command line: repository names *)
Lemma py_in_char_cons c d s :
  py_in (String c EmptyString) (String d s) = Ascii.eqb c d || py_in (String c EmptyString) s.
Proof.
  simpl. destruct (ascii_dec c d) as [->|Hne].
  - rewrite Ascii.eqb_refl. by destruct s.
  - apply Ascii.eqb_neq in Hne. by rewrite Hne.
Qed.

Lemma split_on_app_sep sep a b :
  py_in (String sep EmptyString) a = false ->
  split_on sep (a ++ String sep b) = a :: split_on sep b.
Proof.
  induction a as [|c a IH]; intros H; simpl.
  - by rewrite Ascii.eqb_refl.
  - rewrite py_in_char_cons in H. apply orb_false_iff in H as [H1 H2].
    rewrite Ascii.eqb_sym, H1, IH by done. done.
Qed.

Lemma split_on_no_sep sep s :
  py_in (String sep EmptyString) s = false -> split_on sep s = [s].
Proof.
  induction s as [|c s IH]; intros H; simpl; [done|].
  rewrite py_in_char_cons in H. apply orb_false_iff in H as [H1 H2].
  rewrite Ascii.eqb_sym, H1, IH by done. done.
Qed.

Lemma py_in_char_app_sep sep a b :
  py_in (String sep EmptyString) (a ++ String sep b) = true.
Proof.
  induction a as [|c a IH].
  - change (EmptyString ++ String sep b) with (String sep b).
    by rewrite py_in_char_cons, Ascii.eqb_refl.
  - change (String c a ++ String sep b) with (String c (a ++ String sep b)).
    by rewrite py_in_char_cons, IH, orb_true_r.
Qed.

Lemma split_on_not_nil sep s : split_on sep s ≠ [].
Proof. destruct s as [|c s]; simpl; [done|]. destruct (Ascii.eqb c sep); [done|]. by destruct (split_on sep s). Qed.

Lemma split_on_pieces sep s :
  String.concat (String sep EmptyString) (split_on sep s) = s ∧
  Forall (fun w => py_in (String sep EmptyString) w = false) (split_on sep s).
Proof.
  induction s as [|c s [IH1 IH2]]; simpl; [split; [done|repeat constructor]|].
  destruct (Ascii.eqb c sep) eqn:E.
  - apply Ascii.eqb_eq in E as ->. split; [|by constructor].
    pose proof (split_on_not_nil sep s).
    destruct (split_on sep s) as [|w ws]; simpl in *; [done|]. by rewrite IH1.
  - pose proof (split_on_not_nil sep s).
    destruct (split_on sep s) as [|w ws]; [done|]. simpl in *.
    inversion IH2 as [|? ? Hw Hws]; subst.
    split; [by destruct ws|].
    constructor; [|done]. rewrite py_in_char_cons, Ascii.eqb_sym, E. done.
Qed.

(** [parse_repo_name] returns [(owner, repo)] exactly when the name is
    [owner/repo] with no slash in either part. *)
Theorem parse_repo_name_roundtrip repo_name owner repo :
  parse_repo_name repo_name = Ok (owner, repo) <->
  repo_name = owner ++ "/" ++ repo ∧ py_in "/" owner = false ∧ py_in "/" repo = false.
Proof.
  unfold parse_repo_name. split.
  - destruct (py_in "/" repo_name) eqn:Hin; [|discriminate].
    destruct (split_on_pieces slash repo_name) as [Hc Hf].
    destruct (split_on slash repo_name) as [|o [|r [|x l]]] eqn:Es; try discriminate.
    intros [= -> ->]. inversion Hf as [|? ? Ho Hr]; subst. inversion Hr; subst.
    split; [reflexivity|]. split; assumption.
  - intros (-> & Ho & Hr).
    change ("/" ++ repo) with (String slash repo).
    rewrite py_in_char_app_sep, split_on_app_sep, split_on_no_sep by done. done.
Qed.

(* ------------------------------------------------------------------ *)
(** ** Preparing the file sets *)
Lemma post_try_fetch gh p ref :
  post (try_fetch gh p ref) (fun r => ∀ c, r = Some c -> gh_get_file_content gh p ref = Ok c).
Proof.
  intros st r st'. rewrite try_fetch_eq.
  destruct (gh_get_file_content gh p ref); intros [= <- _]; congruence.
Qed.

Lemma post_fetch_tree_files gh sha items files :
  post (fetch_tree_files gh sha items files) (fun files' => ∀ p c, files' !! p = Some c ->
    files !! p = Some c ∨
    (p ∈ items ∧ py_endswith ".py" p = true ∧ no_test p ∧ gh_get_file_content gh p sha = Ok c)).
Proof.
  revert files. induction items as [|fp items IH]; intros files; simpl.
  { apply post_ret. auto. }
  destruct (py_endswith ".py" fp && negb (py_in "test" (py_lower fp))) eqn:Ec.
  - apply post_bind with (1 := post_try_fetch gh fp sha). intros r Hr.
    eapply post_weaken; [apply IH|]. intros files' H p c Hp.
    destruct (H p c Hp) as [Hf|(Hi & He & Ht & Hg)]; [|right; split; [by right|done]].
    destruct r as [c'|]; [|by left].
    destruct (decide (p = fp)) as [->|Hne].
    + rewrite lookup_insert_eq in Hf. injection Hf as ->.
      apply andb_true_iff in Ec as [E1 E2]. apply negb_true_iff in E2.
      right. split; [by left|]. auto.
    + rewrite lookup_insert_ne in Hf by done. by left.
  - eapply post_weaken; [apply IH|]. intros files' H p c Hp.
    destruct (H p c Hp) as [Hf|(Hi & He & Ht & Hg)]; [by left|right; split; [by right|done]].
Qed.

Lemma post_fetch_changed_files gh sha pr_files files :
  post (fetch_changed_files gh sha pr_files files) (fun files' => ∀ p c, files' !! p = Some c ->
    files !! p = Some c ∨
    (∃ fi, fi ∈ pr_files ∧ fi_filename fi = p ∧ in_list (fi_status fi) ["added"; "modified"] = true ∧
           gh_get_file_content gh p sha = Ok c)).
Proof.
  revert files. induction pr_files as [|fi pr_files IH]; intros files; cbn [fetch_changed_files].
  { apply post_ret. auto. }
  destruct (in_list (fi_status fi) ["added"; "modified"]) eqn:Ec.
  - apply post_bind with (1 := post_try_fetch gh (fi_filename fi) sha). intros r Hr.
    eapply post_weaken; [apply IH|]. intros files' H p c Hp.
    destruct (H p c Hp) as [Hf|(fi' & Hi & He)]; [|right; exists fi'; split; [by right|done]].
    destruct r as [c'|]; [|by left].
    destruct (decide (p = fi_filename fi)) as [->|Hne].
    + rewrite lookup_insert_eq in Hf. injection Hf as ->.
      right. exists fi. split; [by left|]. auto.
    + rewrite lookup_insert_ne in Hf by done. by left.
  - eapply post_weaken; [apply IH|]. intros files' H p c Hp.
    destruct (H p c Hp) as [Hf|(fi' & Hi & He)]; [by left|right; exists fi'; split; [by right|done]].
Qed.

(** Every file [prepare_files_from_pr] returns holds the content fetched
    at the PR's head commit, and its path is either a non-test [.py] path of
    the branch tree (with [fetch_all]) or the name of an added or modified
    file of the PR. *)
Theorem prepare_files_from_pr_contents gh pr_number fetch_all st files st' p c :
  prepare_files_from_pr gh pr_number fetch_all st = (Ok files, st') ->
  files !! p = Some c ->
  ∃ info, gh_get_pr_info gh pr_number = Ok info ∧
    gh_get_file_content gh p (pr_head_sha info) = Ok c ∧
    ((fetch_all = true ∧ ∃ items, gh_tree gh (pr_head_sha info) = Ok items ∧ p ∈ items ∧
        py_endswith ".py" p = true ∧ py_in "test" (py_lower p) = false) ∨
     (∃ pr_files fi, gh_get_pr_files gh pr_number = Ok pr_files ∧ fi ∈ pr_files ∧
        fi_filename fi = p ∧ in_list (fi_status fi) ["added"; "modified"] = true)).
Proof.
  intros Hrun. revert p c. revert st files st' Hrun.
  change (post (prepare_files_from_pr gh pr_number fetch_all) (fun files => ∀ p c,
    files !! p = Some c -> ∃ info, gh_get_pr_info gh pr_number = Ok info ∧
    gh_get_file_content gh p (pr_head_sha info) = Ok c ∧
    ((fetch_all = true ∧ ∃ items, gh_tree gh (pr_head_sha info) = Ok items ∧ p ∈ items ∧
        py_endswith ".py" p = true ∧ py_in "test" (py_lower p) = false) ∨
     (∃ pr_files fi, gh_get_pr_files gh pr_number = Ok pr_files ∧ fi ∈ pr_files ∧
        fi_filename fi = p ∧ in_list (fi_status fi) ["added"; "modified"] = true)))).
  unfold prepare_files_from_pr.
  apply post_bind with (fun info => gh_get_pr_info gh pr_number = Ok info); [by apply post_call|].
  intros info Hinfo.
  apply post_bind with (fun r : FileSet * bool =>
    (r.2 = true -> ∀ p c, r.1 !! p = Some c -> fetch_all = true ∧
       gh_get_file_content gh p (pr_head_sha info) = Ok c ∧
       ∃ items, gh_tree gh (pr_head_sha info) = Ok items ∧ p ∈ items ∧
        py_endswith ".py" p = true ∧ py_in "test" (py_lower p) = false) ∧
    (r.2 = false -> r.1 = ∅)).
  - destruct fetch_all; [|apply post_ret; split; [done|done]].
    apply post_try_except; [|intros e; apply post_ret; split; [done|done]].
    apply post_bind with (fun items => gh_tree gh (pr_head_sha info) = Ok items); [by apply post_call|].
    intros items Hitems.
    eapply post_bind; [apply post_fetch_tree_files|]. intros files Hf.
    apply post_ret. split; [|done]. intros _ p c Hp. simpl in Hp.
    destruct (Hf p c Hp) as [He|(Hi & He & Ht & Hg)]; [done|].
    split; [done|]. split; [done|]. eauto 10.
  - intros [files []] [H1 H2]; simpl in *.
    + apply post_ret. intros p c Hp. destruct (H1 eq_refl p c Hp) as (-> & Hg & Hrest).
      exists info. split; [done|]. split; [done|]. left. auto.
    + rewrite (H2 eq_refl).
      apply post_bind with (fun pfs => gh_get_pr_files gh pr_number = Ok pfs); [by apply post_call|].
      intros pfs Hpfs. eapply post_weaken; [apply post_fetch_changed_files|].
      intros files' H p c Hp. destruct (H p c Hp) as [He|(fi & Hi & Hn & Hs & Hg)]; [done|].
      exists info. split; [done|]. subst p. split; [done|]. right. eauto 10.
Qed.

(** When the branch tree cannot be listed, [prepare_files_from_pr] with
    [fetch_all=True] falls back to the changed files and behaves exactly as
    with [fetch_all=False]. *)
Theorem prepare_files_from_pr_tree_failure gh pr_number info e st :
  gh_get_pr_info gh pr_number = Ok info ->
  gh_tree gh (pr_head_sha info) = Exc e ->
  prepare_files_from_pr gh pr_number true st = prepare_files_from_pr gh pr_number false st.
Proof.
  intros Hi Ht. unfold prepare_files_from_pr. unfold_M. rewrite Hi. simpl. rewrite Ht. done.
Qed.

(* ------------------------------------------------------------------ *)
(** ** The sandbox stage *)
Lemma post_try_finally {A} (m : M A) (fin : M unit) (Q : A -> Prop) :
  post m Q -> post (try_finally m fin) Q.
Proof.
  intros Hm st a st'. unfold try_finally.
  destruct (m st) as [r st1] eqn:E. destruct (fin st1) as [[u|e] st2]; [|discriminate].
  intros [= -> _]. by apply (Hm st a st1).
Qed.

Lemma post_sandbox_body dt code_files test_files :
  post (sandbox_body dt code_files test_files) (fun r =>
    tr_error r = None ∧
    ((tr_status r = "passed" ∧ tr_exit_code r = Some 0%Z) ∨
     (tr_status r = "failed" ∧ ∃ z, tr_exit_code r = Some z ∧ z ≠ 0%Z))).
Proof.
  unfold sandbox_body.
  apply post_bind with (fun _ => True); [apply post_true|intros _ _].
  apply post_bind with (fun _ => True); [apply post_true|intros _ _].
  apply post_bind with (fun _ => True); [apply post_true|intros [z out] _].
  apply post_ret. simpl. split; [done|].
  case_bool_decide as Hz; [left; by subst|right; eauto].
Qed.

(** [_run_tests_in_daytona] never raises, and its result is one of four
    shapes: [passed] with exit code 0, [failed] with a non-zero exit code,
    [no_tests] with no exit code and no tests, or [error] with no exit code,
    no tests and an error message. *)
Theorem run_tests_in_daytona_status gh dt ast_parse pr_number test_pr_number st :
  ∃ r, (run_tests_in_daytona gh dt ast_parse pr_number test_pr_number st).1 = Ok r ∧
    ((tr_status r = "passed" ∧ tr_exit_code r = Some 0%Z ∧ tr_error r = None) ∨
     (tr_status r = "failed" ∧ (∃ z, tr_exit_code r = Some z ∧ z ≠ 0%Z) ∧ tr_error r = None) ∨
     (tr_status r = "no_tests" ∧ tr_exit_code r = None ∧ tr_generated r = [] ∧ tr_error r = None) ∨
     (tr_status r = "error" ∧ tr_exit_code r = None ∧ tr_generated r = [] ∧ is_Some (tr_error r))).
Proof.
  set (Q := fun r : TestResults =>
    (tr_status r = "passed" ∧ tr_exit_code r = Some 0%Z ∧ tr_error r = None) ∨
    (tr_status r = "failed" ∧ (∃ z, tr_exit_code r = Some z ∧ z ≠ 0%Z) ∧ tr_error r = None) ∨
    (tr_status r = "no_tests" ∧ tr_exit_code r = None ∧ tr_generated r = [] ∧ tr_error r = None) ∨
    (tr_status r = "error" ∧ tr_exit_code r = None ∧ tr_generated r = [] ∧ is_Some (tr_error r))).
  assert (Hp : post (run_tests_in_daytona gh dt ast_parse pr_number test_pr_number) Q).
  { unfold run_tests_in_daytona.
    apply post_try_except; [|intros e; apply post_ret; subst Q; simpl; eauto 10].
    apply post_bind with (fun _ => True); [apply post_true|intros code_files _].
    apply post_bind with (fun _ => True); [apply post_true|intros test_files _].
    destruct (bool_decide _); [apply post_ret; subst Q; simpl; eauto 10|].
    apply post_bind with (fun _ => True); [apply post_true|intros cf _].
    apply post_bind with (fun _ => True); [apply post_true|intros _ _].
    apply post_try_finally. eapply post_weaken; [apply post_sandbox_body|].
    intros r (He & [[Hs Hz]|(Hs & Hz)]); subst Q; simpl; eauto 10. }
  assert (Hok : is_ok (run_tests_in_daytona gh dt ast_parse pr_number test_pr_number st).1 = true).
  { unfold run_tests_in_daytona. by apply try_except_total. }
  destruct (run_tests_in_daytona gh dt ast_parse pr_number test_pr_number st) as [[r|e] st'] eqn:E;
    [|discriminate].
  exists r. split; [done|]. exact (Hp st r st' E).
Qed.



(* ------------------------------------------------------------------ *)
(** ** The orchestrator's stages *)
Lemma no_create_gpt_stage p an pr_number pr_info result :
  no_create (gpt_stage p an pr_number pr_info result).
Proof.
  unfold gpt_stage. apply no_create_bind.
  - apply no_create_try_except; [|intros; apply no_create_ret].
    apply no_create_bind; [apply no_create_prepare_files|intros cf].
    apply no_create_bind; [apply no_create_call|intros a].
    apply no_create_bind; [apply no_create_call|intros; apply no_create_ret].
  - intros [[a risk]|e]; [|apply no_create_ret].
    destruct (apply_review_updates _ a). apply no_create_ret.
Qed.

Lemma gpt_stage_keeps_tests p an pr_number pr_info result :
  post (gpt_stage p an pr_number pr_info result) (fun r =>
    res_test_results r = res_test_results result ∧ res_generated r = res_generated result ∧
    res_test_error r = res_test_error result).
Proof.
  unfold gpt_stage. apply post_bind with (fun _ => True); [apply post_true|].
  intros [[a risk]|e] _; [|by apply post_ret].
  destruct (apply_review_updates _ a). by apply post_ret.
Qed.

(** With [skip_tests] or without a test runner, [process_pr] creates no
    sandbox, and a result it returns has no test results, no generated
    tests and no test error. *)
Theorem process_pr_tests_skipped p pr_number skip_tests skip_gpt st :
  skip_tests = true ∨ p_test_runner p = None ->
  let res := process_pr p pr_number skip_tests skip_gpt st in
  (∃ tr, st_trace res.2 = (st_trace st ++ tr)%list ∧ ECreateSandbox ∉ tr) ∧
  ∀ r, res.1 = Ok r ->
    res_test_results r = None ∧ res_generated r = [] ∧ res_test_error r = None.
Proof.
  intros Hskip. simpl.
  assert (Htest : ∀ result : PRResult,
    (match p_test_runner p with
     | Some dt => if negb skip_tests then test_stage p dt pr_number result else mret result
     | None => mret result
     end) = mret result).
  { intros result. destruct Hskip as [->| ->]; [by destruct (p_test_runner p)|done]. }
  set (Q := fun r : PRResult => res_test_results r = None ∧ res_generated r = [] ∧ res_test_error r = None).
  assert (Hnc : no_create (process_pr p pr_number skip_tests skip_gpt)).
  { unfold process_pr.
    apply no_create_bind; [apply no_create_call|intros info].
    apply no_create_bind; [apply no_create_call|intros hr].
    apply no_create_bind.
    { destruct hr; [|apply no_create_ret].
      apply no_create_bind; [apply no_create_call|intros; apply no_create_ret]. }
    intros reviews. rewrite Htest.
    apply no_create_bind; [apply no_create_ret|intros result].
    destruct (p_gpt_analyzer p) as [an|]; [destruct (negb skip_gpt)|];
      [apply no_create_gpt_stage|apply no_create_ret|apply no_create_ret]. }
  assert (Hp : post (process_pr p pr_number skip_tests skip_gpt) Q).
  { unfold process_pr.
    apply post_bind with (fun _ => True); [apply post_true|intros info _].
    apply post_bind with (fun _ => True); [apply post_true|intros hr _].
    apply post_bind with (fun _ => True); [apply post_true|intros reviews _].
    rewrite Htest.
    apply post_bind with Q; [apply post_ret; subst Q; simpl; done|intros result HQ].
    destruct (p_gpt_analyzer p) as [an|]; [destruct (negb skip_gpt)|];
      try (apply post_ret; done).
    eapply post_weaken; [apply gpt_stage_keeps_tests|].
    intros r (H1 & H2 & H3). subst Q; simpl in *. rewrite H1, H2, H3. done. }
  destruct (Hnc st) as (tr & H1 & H2). split; [eauto|].
  intros r E. destruct (process_pr p pr_number skip_tests skip_gpt st) as [res st'] eqn:Er.
  simpl in E. subst res. exact (Hp st r st' Er).
Qed.

(** When the scorer answers with something other than a JSON object, step
    4 of [process_pr] records an error, and keeps the risk and the reviews
    unchanged. *)
Theorem gpt_stage_non_object_analysis p an pr_number pr_info result st :
  (∀ code_files analysis,
     an pr_info (res_reviews result) (res_test_results result) code_files = Ok analysis ->
     ∀ o, analysis ≠ JObj o) ->
  ∃ r, (gpt_stage p an pr_number pr_info result st).1 = Ok r ∧
    res_risk r = res_risk result ∧ res_reviews r = res_reviews result ∧
    is_Some (res_gpt_error r).
Proof.
  intros Han. unfold gpt_stage. unfold_M.
  destruct (prepare_files_from_pr (p_github p) pr_number true st) as [[cf|e] st1]; simpl;
    [|eexists; split; [reflexivity|]; simpl; eauto].
  destruct (an pr_info (res_reviews result) (res_test_results result) cf) as [a|e] eqn:Ea; simpl;
    [|eexists; split; [reflexivity|]; simpl; eauto].
  destruct a as [| | | | |o]; simpl;
    try (eexists; split; [reflexivity|]; simpl; eauto).
  exfalso. exact (Han cf _ Ea o eq_refl).
Qed.

(** With a PR body, [analyze_pr] builds its prompt and never raises; if
    the OpenAI request fails it returns the fallback analysis with risk 50
    and confidence 0. *)
Theorem analyze_pr_with_body oa pr_info reviews test_results code_files body :
  pr_body pr_info = Some body ->
  ∃ prompt,
    build_analysis_prompt (oa_json_dumps oa) pr_info reviews test_results code_files = Ok prompt ∧
    (∃ analysis, analyze_pr oa pr_info reviews test_results code_files = Ok analysis) ∧
    ∀ e, oa_complete oa prompt = Exc e ->
      ∃ analysis, analyze_pr oa pr_info reviews test_results code_files = Ok analysis ∧
        json_get analysis "risk" (JNum 0) = Ok (JNum 50) ∧
        json_get analysis "confidence" (JNum 0) = Ok (JNum 0).
Proof.
  intros Hb.
  assert (∃ prompt, build_analysis_prompt (oa_json_dumps oa) pr_info reviews test_results code_files
            = Ok prompt) as [prompt Hp].
  { unfold build_analysis_prompt. destruct (test_counts test_results) as [[? ?] ?].
    rewrite Hb. eauto. }
  exists prompt. split; [done|]. split.
  - unfold analyze_pr. rewrite Hp.
    destruct (match oa_complete oa prompt with
              | Ok (Some t) => oa_json_loads oa t | Ok None => _ | Exc e => Exc e end); eauto.
  - intros e He. eexists. split; [apply (analyze_pr_call_failure _ _ _ _ _ _ _ Hp He)|].
    split; reflexivity.
Qed.


Lemma dict_get_set d k v k' :
  dict_get (dict_set d k v) k' = if String.eqb k' k then Some v else dict_get d k'.
Proof.
  induction d as [|[k0 v0] d IH]; simpl.
  - done.
  - destruct (String.eqb k k0) eqn:E; simpl.
    + apply String.eqb_eq in E as ->. by destruct (String.eqb k' k0).
    + rewrite IH. destruct (String.eqb k' k0) eqn:E1, (String.eqb k' k) eqn:E2; try done.
      apply String.eqb_eq in E1, E2. subst. by rewrite String.eqb_refl in E.
Qed.

Lemma dict_set_keys d k v : ∃ extra, map fst (dict_set d k v) = (map fst d ++ extra)%list.
Proof.
  induction d as [|[k0 v0] d IH]; simpl; [by exists [k]|].
  destruct (String.eqb k k0).
  - exists []. by rewrite app_nil_r.
  - destruct IH as [extra Hx]. exists extra. simpl. rewrite Hx. done.
Qed.

Lemma dict_get_app_single l k v k' :
  dict_get (l ++ [(k, v)])%list k' =
  match dict_get l k' with Some x => Some x | None => if String.eqb k' k then Some v else None end.
Proof.
  induction l as [|[k0 v0] l IH]; simpl; [done|]. by destruct (String.eqb k' k0).
Qed.

(** [review.update(d)] with a dict [d] never raises: a key of [d] takes
    the last value [d] gives it, other keys keep theirs, and the existing
    keys keep their order with the new keys after them. *)
Theorem review_update_object review kv :
  ∃ review', review_update review (JObj kv) = Ok review' ∧
    (∀ k, dict_get review' k =
          match dict_get (rev kv) k with Some v => Some v | None => dict_get review k end) ∧
    ∃ extra, map fst review' = (map fst review ++ extra)%list.
Proof.
  exists (dict_update review kv). split; [done|]. unfold dict_update.
  revert review. induction kv as [|[k v] kv IH]; intros review; simpl.
  { split; [done|]. exists []. by rewrite app_nil_r. }
  destruct (IH (dict_set review k v)) as [H1 [extra H2]]. split.
  - intros k'. rewrite H1, dict_get_app_single, dict_get_set.
    destruct (dict_get (rev kv) k'); [done|]. by destruct (String.eqb k' k).
  - destruct (dict_set_keys review k v) as [e1 He1].
    exists (e1 ++ extra)%list. by rewrite H2, He1, app_assoc.
Qed.

(* ------------------------------------------------------------------ *)
(** ** The batch driver and the import resolver *)
(** The PRs [main] processes are a prefix of the listed PRs (open then
    closed for [--state all]): all of them without [--max-prs] or with 0,
    the first [n] for a positive [n], all but the last [-n] for a negative
    [n]. *)
Theorem select_prs_prefix list_prs state max_prs selected :
  select_prs list_prs state max_prs = Ok selected ->
  ∃ prs rest, list_all_prs list_prs state = Ok prs ∧ prs = (selected ++ rest)%list ∧
    (max_prs = None ∨ max_prs = Some 0%Z -> rest = []) ∧
    (∀ n, max_prs = Some n -> (0 < n)%Z -> length selected = Nat.min (Z.to_nat n) (length prs)) ∧
    (∀ n, max_prs = Some n -> (n < 0)%Z -> length rest = Nat.min (Z.to_nat (- n)) (length prs)).
Proof.
  unfold select_prs. destruct (list_all_prs list_prs state) as [prs|e]; simpl; [|discriminate].
  intros [= <-]. unfold limit_prs.
  destruct max_prs as [n|].
  2:{ exists prs, []. rewrite app_nil_r. repeat split; try done; intros ? [=]. }
  destruct (Z.eqb_spec n 0) as [->|Hn].
  { exists prs, []. rewrite app_nil_r. repeat split; try done; intros ? [= <-]; lia. }
  unfold py_slice_to. destruct (Z.leb_spec 0 n) as [Hle|Hlt].
  - exists prs, (skipn (Z.to_nat n) prs). rewrite firstn_skipn.
    repeat split; try done.
    + intros [[=]|[= ->]]; lia.
    + intros n' [= <-] _. apply length_firstn.
    + intros n' [= <-]. lia.
  - exists prs, (skipn (Z.to_nat (Z.of_nat (length prs) + n)) prs). rewrite firstn_skipn.
    repeat split; try done.
    + intros [[=]|[= ->]]; lia.
    + intros n' [= <-]. lia.
    + intros n' [= <-] _. rewrite length_skipn. lia.
Qed.

Lemma first_segment_no_dot m : py_in "." (first_segment m) = false.
Proof.
  unfold first_segment. destruct (split_on_pieces "."%char m) as [_ Hf].
  pose proof (split_on_not_nil "."%char m) as Hne.
  destruct (split_on "."%char m) as [|w ws]; [done|]. simpl. by inversion Hf.
Qed.


Lemma add_module_closed m acc :
  closed_under_first_segment acc -> closed_under_first_segment (add_module m acc).
Proof.
  unfold add_module. intros H x Hx Hdot.
  destruct (py_in "." m) eqn:Em.
  - apply elem_of_union in Hx as [Hx|Hx].
    + apply elem_of_singleton in Hx as ->. by rewrite first_segment_no_dot in Hdot.
    + apply elem_of_union in Hx as [Hx|Hx].
      * apply elem_of_singleton in Hx as ->. set_solver.
      * specialize (H x Hx Hdot). set_solver.
  - apply elem_of_union in Hx as [Hx|Hx].
    + apply elem_of_singleton in Hx as ->. congruence.
    + specialize (H x Hx Hdot). set_solver.
Qed.

Lemma foldl_closed {A} (f : gset string -> A -> gset string) (l : list A) acc :
  (∀ a x, closed_under_first_segment a -> closed_under_first_segment (f a x)) ->
  closed_under_first_segment acc -> closed_under_first_segment (foldl f acc l).
Proof. intros Hf. revert acc. induction l as [|x l IH]; intros acc H; simpl; auto. Qed.

(** The module set of [parse_imports_from_test_files] holds the
    top-level package of each dotted module it holds. *)
Theorem parse_imports_has_top_package ast_parse test_files m :
  m ∈ parse_imports_from_test_files ast_parse test_files ->
  py_in "." m = true ->
  first_segment m ∈ parse_imports_from_test_files ast_parse test_files.
Proof.
  revert m. change (closed_under_first_segment (parse_imports_from_test_files ast_parse test_files)).
  unfold parse_imports_from_test_files. apply foldl_closed; [|intros x Hx; set_solver].
  intros a [file_path content] Ha. destruct (negb _); [done|].
  destruct (ast_parse content) as [nodes|].
  - apply foldl_closed; [|done]. intros b [names|[mm|]] Hb; simpl; [|by apply add_module_closed|done].
    apply foldl_closed; [|done]. intros c x Hc. by apply add_module_closed.
  - unfold regex_fallback. apply foldl_closed; [|done].
    intros b line Hb. destruct (match_import_pattern _); [by apply add_module_closed|done].
Qed.


Lemma batch_loop_ids p skip_tests skip_gpt save i prs results st :
  (∀ l, save l = Ok tt) ->
  ∃ rest, (batch_loop p skip_tests skip_gpt save i prs results st).1 = Ok (results ++ rest)%list ∧
    map entry_id rest = map pl_number prs.
Proof.
  intros Hs. revert i results st. induction prs as [|pr prs IH]; intros i results st.
  { exists []. rewrite app_nil_r. done. }
  pose proof (process_pr_post p (pl_number pr) skip_tests skip_gpt st) as Hpp.
  simpl. unfold_M.
  destruct (process_pr p (pl_number pr) skip_tests skip_gpt st) as [[r|e] st1]; simpl.
  - specialize (Hpp r st1 eq_refl) as [Hid _].
    destruct (Nat.eqb _ 0); [rewrite Hs|]; simpl;
      (destruct (IH (S i) (results ++ [Processed r])%list st1) as (rest & H1 & H2);
       exists (Processed r :: rest); rewrite H1, <- app_assoc; simpl; split; [done|];
       by rewrite H2, Hid).
  - destruct (IH (S i) (results ++ [ErrorEntry (pl_number pr) (pl_title pr) (pl_html_url pr) e])%list st1)
      as (rest & H1 & H2).
    exists (ErrorEntry (pl_number pr) (pl_title pr) (pl_html_url pr) e :: rest).
    rewrite H1, <- app_assoc. simpl. split; [done|]. by rewrite H2.
Qed.

(** When the checkpoint save never fails, the batch loop of [main] gives
    exactly one entry per listed PR, in the listed order, whether the PR was
    processed or raised. *)
Theorem batch_one_entry_per_pr p skip_tests skip_gpt save prs st :
  (∀ l, save l = Ok tt) ->
  ∃ entries, (batch p skip_tests skip_gpt save prs st).1 = Ok entries ∧
    map entry_id entries = map pl_number prs.
Proof. intros Hs. destruct (batch_loop_ids p skip_tests skip_gpt save 1 prs [] st Hs) as (r & H1 & H2). eauto. Qed.


Lemma existsb_false_elem {A} (f : A -> bool) l x :
  existsb f l = false -> x ∈ l -> f x = false.
Proof.
  intros H Hx. destruct (f x) eqn:E; [|done].
  assert (existsb f l = true) as Ht; [|congruence].
  apply existsb_exists. exists x. split; [by apply list_elem_of_In|done].
Qed.


(** [detect_test_command] picks unittest only when a [.py] test file
    exists, no test file mentions pytest and one mentions unittest; it picks
    [npm test] or [mvn test] only when no test path ends in [.py]. *)
Theorem detect_test_command_choice (files : FileSet) :
  (detect_test_command files = "python -m unittest discover" ->
   (∃ f, is_Some (files !! f) ∧ is_test_file_path f = true ∧ py_endswith ".py" f = true) ∧
   (∀ f c, files !! f = Some c -> is_test_file_path f = true -> py_in "pytest" c = false) ∧
   (∃ f c, files !! f = Some c ∧ is_test_file_path f = true ∧
           (py_in "unittest" c || py_in "import unittest" c) = true)) ∧
  (detect_test_command files = "npm test" ∨ detect_test_command files = "mvn test" ->
   ∀ f, is_Some (files !! f) -> is_test_file_path f = true -> py_endswith ".py" f = false).
Proof.
  assert (Hmem : ∀ f, f ∈ map fst (map_to_list files) <-> is_Some (files !! f)).
  { intros f. rewrite list_elem_of_fmap. split.
    - intros ([f' c] & -> & Hc). apply elem_of_map_to_list in Hc. simpl. eauto.
    - intros [c Hc]. exists (f, c). split; [done|]. by apply elem_of_map_to_list. }
  assert (Htf : ∀ f, f ∈ List.filter is_test_file_path (map fst (map_to_list files)) <->
                     is_Some (files !! f) ∧ is_test_file_path f = true).
  { intros f. rewrite list_elem_of_In, filter_In, <- list_elem_of_In, Hmem. done. }
  unfold detect_test_command. fold is_test_file_path.
  set (tf := List.filter is_test_file_path (map fst (map_to_list files))).
  destruct (existsb (py_endswith ".py") tf) eqn:Epy.
  - apply existsb_exists in Epy as (f & Hf & Hfpy). apply list_elem_of_In, Htf in Hf as [Hf1 Hf2].
    split; [|destruct (existsb _ tf); [|destruct (existsb _ tf)]; intros [Hc|Hc]; discriminate].
    destruct (existsb (fun f => py_in "pytest" (default "" (files !! f))
                              || py_in "import pytest" (default "" (files !! f))) tf) eqn:Ept;
      [discriminate|].
    destruct (existsb (fun f => py_in "unittest" (default "" (files !! f))
                              || py_in "import unittest" (default "" (files !! f))) tf) eqn:Eut;
      [|discriminate].
    intros _. split; [exists f; done|]. split.
    + intros g c Hg Hgt. assert (Hin : g ∈ tf) by (apply Htf; eauto).
      pose proof (existsb_false_elem _ _ g Ept Hin) as Hx.
      simpl in Hx. rewrite Hg in Hx. simpl in Hx. by apply orb_false_iff in Hx as [Hx _].
    + apply existsb_exists in Eut as (g & Hg & Hgu). apply list_elem_of_In, Htf in Hg as ([c Hc] & Hgt).
      rewrite Hc in Hgu. simpl in Hgu. eauto.
  - split.
    + destruct (existsb (fun f => py_endswith ".js" f || py_endswith ".ts" f) tf), (existsb (py_endswith ".java") tf); intros Heq; discriminate Heq.
    + intros _ f Hf Ht. assert (Hin : f ∈ tf) by (by apply Htf).
      exact (existsb_false_elem _ _ f Epy Hin).
Qed.

(* ------------------------------------------------------------------ *)
(** ** Instances on the concrete inputs *)

Lemma coderabbit_check_agrees_with_comments_witness :
  get_coderabbit_comments (ex_api (JStr "")) 3 = Ok [ex_bot_comment] ∧
  check_coderabbit_review (ex_api (JStr "")) 3 = Ok true.
Proof.
  split; [vm_compute; reflexivity|].
  apply (proj1 (coderabbit_check_agrees_with_comments (ex_api (JStr "")) 3) ex_bot_comment []).
  vm_compute. reflexivity.
Defined.

Lemma find_coderabbit_test_pr_sound_witness :
  find_coderabbit_test_pr (ex_api (JStr "")) 3 = Ok (Some (ex_test_pr (JStr ""))) ∧
  test_pr_qualifies 3 (ex_test_pr (JStr "")).
Proof.
  split; [vm_compute; reflexivity|].
  apply (find_coderabbit_test_pr_sound (ex_api (JStr "")) 3). vm_compute. reflexivity.
Defined.

Lemma find_coderabbit_test_pr_null_body_witness :
  json_get (ex_test_pr JNull) "body" (JStr "") = Ok JNull ∧
  find_coderabbit_test_pr (ex_api JNull) 3 = Exc "'NoneType' object has no attribute 'lower'".
Proof.
  split; [reflexivity|].
  apply (find_coderabbit_test_pr_null_body (ex_api JNull) 3 (ex_test_pr JNull) []
           (JObj [("number", JNum 3)])).
  - reflexivity.
  - reflexivity.
  - exists "Unit tests for PR #3". reflexivity.
  - reflexivity.
Defined.

Lemma parse_repo_name_roundtrip_witness :
  parse_repo_name "octo/shipsure" = Ok ("octo", "shipsure") ∧
  parse_repo_name "octo/ship/sure" ≠ Ok ("octo", "ship/sure").
Proof.
  split.
  - apply parse_repo_name_roundtrip. split; [reflexivity|]. split; reflexivity.
  - intros H. apply parse_repo_name_roundtrip in H as (_ & _ & H). discriminate H.
Defined.

Lemma prepare_files_from_pr_contents_witness :
  (prepare_files_from_pr ex_github 4 false st0).1 = Ok {["tests/test_payment.py" := ex_test_src]} ∧
  ∃ pr_files fi, gh_get_pr_files ex_github 4 = Ok pr_files ∧ fi ∈ pr_files ∧
    fi_filename fi = "tests/test_payment.py" ∧ in_list (fi_status fi) ["added"; "modified"] = true.
Proof.
  split; [vm_compute; reflexivity|].
  destruct (prepare_files_from_pr_contents ex_github 4 false st0
              {["tests/test_payment.py" := ex_test_src]} (prepare_files_from_pr ex_github 4 false st0).2
              "tests/test_payment.py" ex_test_src) as (info & _ & _ & [[Hf _]|H]).
  - vm_compute. reflexivity.
  - vm_compute. reflexivity.
  - discriminate Hf.
  - exact H.
Defined.

Lemma prepare_files_from_pr_tree_failure_witness :
  gh_tree ex_github_no_tree "abc123" = Exc "404 Client Error: Not Found" ∧
  prepare_files_from_pr ex_github_no_tree 4 true st0 = prepare_files_from_pr ex_github_no_tree 4 false st0.
Proof.
  split; [reflexivity|].
  apply (prepare_files_from_pr_tree_failure ex_github_no_tree 4
           (ex_pr_info (Some "Adds a payment processor")) "404 Client Error: Not Found");
    reflexivity.
Defined.


Lemma process_pr_tests_skipped_witness :
  is_ok (process_pr (ex_processor None) 3 true true st0).1 = true ∧
  ∀ r, (process_pr (ex_processor None) 3 true true st0).1 = Ok r -> res_test_results r = None.
Proof.
  split; [vm_compute; reflexivity|].
  pose proof (process_pr_tests_skipped (ex_processor None) 3 true true st0 (or_introl eq_refl)) as H.
  cbv zeta in H. intros r Hr. exact (proj1 (proj2 H r Hr)).
Defined.

Lemma gpt_stage_non_object_analysis_witness :
  ∃ r, (gpt_stage (ex_processor (Some ex_analyzer_list)) ex_analyzer_list 3
          (ex_pr_info None) ex_result st0).1 = Ok r ∧ is_Some (res_gpt_error r).
Proof.
  destruct (gpt_stage_non_object_analysis (ex_processor (Some ex_analyzer_list)) ex_analyzer_list 3
              (ex_pr_info None) ex_result st0) as (r & Hr & _ & _ & He).
  - intros cf a H o. injection H as <-. discriminate.
  - exists r. split; assumption.
Defined.

Lemma analyze_pr_with_body_witness :
  ∃ analysis, analyze_pr ex_openai_down (ex_pr_info (Some "Adds a payment processor")) [] None ∅
                = Ok analysis ∧ json_get analysis "risk" (JNum 0) = Ok (JNum 50).
Proof.
  destruct (analyze_pr_with_body ex_openai_down (ex_pr_info (Some "Adds a payment processor"))
              [] None ∅ "Adds a payment processor" eq_refl) as (prompt & _ & _ & H).
  destruct (H "Connection error." eq_refl) as (a & Ha & Hr & _).
  exists a. split; assumption.
Defined.


Lemma select_prs_prefix_witness :
  select_prs ex_list_prs "all" (Some (-2)%Z) = Ok [ex_listing 5; ex_listing 4; ex_listing 3] ∧
  ∃ prs rest, list_all_prs ex_list_prs "all" = Ok prs ∧
    prs = ([ex_listing 5; ex_listing 4; ex_listing 3] ++ rest)%list ∧
    length rest = Nat.min 2 (length prs).
Proof.
  split; [vm_compute; reflexivity|].
  destruct (select_prs_prefix ex_list_prs "all" (Some (-2)%Z) [ex_listing 5; ex_listing 4; ex_listing 3])
    as (prs & rest & Hl & Hp & _ & _ & Hn).
  - vm_compute. reflexivity.
  - exists prs, rest. split; [exact Hl|]. split; [exact Hp|].
    exact (Hn (-2)%Z eq_refl ltac:(lia)).
Defined.

Lemma parse_imports_has_top_package_witness :
  "payment.processor" ∈ parse_imports_from_test_files ex_ast_parse
                          {["tests/test_payment.py" := ex_test_src]} ∧
  first_segment "payment.processor" ∈ parse_imports_from_test_files ex_ast_parse
                                        {["tests/test_payment.py" := ex_test_src]}.
Proof.
  assert (H : "payment.processor" ∈ parse_imports_from_test_files ex_ast_parse
                                      {["tests/test_payment.py" := ex_test_src]}).
  { refine (bool_decide_unpack _ _). vm_compute. exact I. }
  split; [exact H|]. apply parse_imports_has_top_package; [exact H|reflexivity].
Defined.


Lemma batch_one_entry_per_pr_witness :
  ∃ entries, (batch (ex_processor None) true true (fun _ => Ok tt)
                [ex_listing 4; ex_listing 3] st0).1 = Ok entries ∧
    map entry_id entries = [4; 3]%Z.
Proof.
  apply (batch_one_entry_per_pr (ex_processor None) true true (fun _ => Ok tt)
           [ex_listing 4; ex_listing 3] st0).
  intros l. reflexivity.
Defined.


Lemma detect_test_command_choice_witness :
  detect_test_command ex_unittest_files = "python -m unittest discover" ∧
  ∃ f c, ex_unittest_files !! f = Some c ∧ is_test_file_path f = true ∧
    (py_in "unittest" c || py_in "import unittest" c) = true.
Proof.
  split; [vm_compute; reflexivity|].
  apply (proj1 (detect_test_command_choice ex_unittest_files) ltac:(vm_compute; reflexivity)).
Defined.
